(** * autpy3270: the page-object layer over a 3270 emulator

    A shallow embedding of [src/base_page.py], [src/enums.py] and
    [src/terminal_config.py].  The Python functions become functions in a
    state-and-exception monad over the emulator session; the py3270
    [Emulator] object they drive is modelled as a character grid with a
    cursor and a journal of every call made on it. *)

From Stdlib Require Import String Ascii ZArith List Lia QArith Bool.
Import ListNotations.

Open Scope string_scope.
Open Scope Z_scope.

(** ** Python strings *)

Module PyStr.

(** [len(s)] *)
Definition len (s : string) : Z := Z.of_nat (String.length s).

(** [line.find(field)]: index of the leftmost occurrence, [-1] if there
    is none. *)
Definition find (line field : string) : Z :=
  match String.index 0 field line with
  | Some i => Z.of_nat i
  | None => -1
  end.

(** [sep.join(parts)] *)
Fixpoint join (sep : string) (parts : list string) : string :=
  match parts with
  | [] => EmptyString
  | [p] => p
  | p :: rest => p ++ sep ++ join sep rest
  end.

(** The characters [str.strip()] removes from text the emulator hands
    back (ASCII): tab, line feed, vertical tab, form feed, carriage
    return, the four separators 28..31 and the space. *)
Definition is_space (c : ascii) : bool :=
  let n := nat_of_ascii c in
  ((9 <=? n) && (n <=? 13) || (28 <=? n) && (n <=? 32))%nat.

Fixpoint lstrip (s : string) : string :=
  match s with
  | EmptyString => EmptyString
  | String c s' => if is_space c then lstrip s' else s
  end.

Fixpoint rstrip (s : string) : string :=
  match s with
  | EmptyString => EmptyString
  | String c s' =>
      match rstrip s' with
      | EmptyString => if is_space c then EmptyString else String c EmptyString
      | r => String c r
      end
  end.

(** [s.strip()] *)
Definition strip (s : string) : string := rstrip (lstrip s).

(** [for char in value]: the one-character strings of [value] in order. *)
Fixpoint chars (s : string) : list string :=
  match s with
  | EmptyString => []
  | String c s' => String c EmptyString :: chars s'
  end.

Definition newline : string := String "010"%char EmptyString.
Definition dquote : string := String "034"%char EmptyString.

(** [range(lo, lo + n)] *)
Fixpoint range_from (lo : Z) (n : nat) : list Z :=
  match n with
  | O => []
  | S n' => lo :: range_from (lo + 1) n'
  end.

(** [range(lo, hi)] *)
Definition range (lo hi : Z) : list Z := range_from lo (Z.to_nat (hi - lo)).

End PyStr.

(** ** enums.py *)

Inductive Key : Set :=
| ENTER | TAB | CLEAR | RESET | BACKSPACE | DELETE | NEWLINE
| PF1 | PF2 | PF3 | PF4 | PF5 | PF6 | PF7 | PF8 | PF9 | PF10 | PF11 | PF12
| PF13 | PF14 | PF15 | PF16 | PF17 | PF18 | PF19 | PF20 | PF21 | PF22
| PF23 | PF24
| PA1 | PA2 | PA3.

Definition Key_eq_dec (a b : Key) : {a = b} + {a <> b}.
Proof. decide equality. Defined.

(** [key.name] *)
Definition Key_name (k : Key) : string :=
  match k with
  | ENTER => "ENTER" | TAB => "TAB" | CLEAR => "CLEAR" | RESET => "RESET"
  | BACKSPACE => "BACKSPACE" | DELETE => "DELETE" | NEWLINE => "NEWLINE"
  | PF1 => "PF1" | PF2 => "PF2" | PF3 => "PF3" | PF4 => "PF4"
  | PF5 => "PF5" | PF6 => "PF6" | PF7 => "PF7" | PF8 => "PF8"
  | PF9 => "PF9" | PF10 => "PF10" | PF11 => "PF11" | PF12 => "PF12"
  | PF13 => "PF13" | PF14 => "PF14" | PF15 => "PF15" | PF16 => "PF16"
  | PF17 => "PF17" | PF18 => "PF18" | PF19 => "PF19" | PF20 => "PF20"
  | PF21 => "PF21" | PF22 => "PF22" | PF23 => "PF23" | PF24 => "PF24"
  | PA1 => "PA1" | PA2 => "PA2" | PA3 => "PA3"
  end.

(** Every declared member of the enum, in declaration order. *)
Definition all_keys : list Key :=
  [ENTER; TAB; CLEAR; RESET; BACKSPACE; DELETE; NEWLINE;
   PF1; PF2; PF3; PF4; PF5; PF6; PF7; PF8; PF9; PF10; PF11; PF12;
   PF13; PF14; PF15; PF16; PF17; PF18; PF19; PF20; PF21; PF22; PF23; PF24;
   PA1; PA2; PA3].

(** What a caller can pass as [key]: Python does not check the annotation,
    so besides the members of [Key] any other (hashable) object can
    arrive; it equals no member, and of it only its [str()] matters here. *)
Inductive key_arg : Set :=
| Member (k : Key)
| Foreign (text : string).

(** [str(key)] as the f-strings print it. *)
Definition key_str (k : key_arg) : string :=
  match k with
  | Member k => "Key." ++ Key_name k
  | Foreign text => text
  end.

(** ** terminal_config.py *)

Record TerminalConfig : Set := mkTerminalConfig {
  SCREEN_COLS : Z;
  SCREEN_ROWS : Z;
  DEFAULT_TIMEOUT : Z;
  CHAR_DELAY : Q;
  DEBUG : bool
}.

(** [TerminalConfig()] with the dataclass defaults. *)
Definition default_config : TerminalConfig :=
  {| SCREEN_COLS := 80; SCREEN_ROWS := 24; DEFAULT_TIMEOUT := 30;
     CHAR_DELAY := 0.05%Q; DEBUG := false |}.

(** ** The emulator session *)

(** One entry per call that reaches the emulator or the clock, with the
    arguments the Python code passed. *)
Inductive event : Set :=
| StringGet (row col length : Z)     (* em.string_get(row, col, length) *)
| MoveTo (row col : Z)               (* em.move_to(row, col) *)
| SendString (text : string)         (* em.send_string(text) *)
| Exec (cmd : string)                (* em.exec_command(cmd), also behind send_enter / send_pf *)
| WaitForField                       (* em.wait_for_field() *)
| Sleep (seconds : Q).               (* time.sleep(seconds) *)

(** Modelled from the spec: the underlying session (py3270's [Emulator],
    which is not part of the repository), with the clock: all that the
    functions of the module can read or change.  [screen] is the grid, one
    string per row; [cursor] is the 0-based (row, column) the device keeps;
    [journal] lists the calls made so far; [budget] says how many more
    calls the session answers ([None]: it stays up), after which every
    call on the emulator raises. *)
Record Emulator : Set := mkEmulator {
  screen : list string;
  cursor : nat * nat;
  journal : list event;
  budget : option nat
}.

(** Exceptions.  [Failed] is the outcome [pytest.fail] raises: it derives
    from [BaseException], so [except Exception] does not catch it. *)
Inductive exc_class : Set := ValueError | TypeError | AttributeError | CommandError.

Inductive terminal_kind : Set :=
| FieldNotFoundError | InputError | KeyError | ScreenError.

Inductive exn : Set :=
| PyExc (cls : exc_class) (msg : string)
| TerminalError (kind : terminal_kind) (msg : string) (screen_content : option string)
| Failed (msg : string).

(** [isinstance(e, Exception)] *)
Definition is_Exception (e : exn) : bool :=
  match e with
  | Failed _ => false
  | _ => true
  end.

(** [isinstance(e, TerminalError)] *)
Definition is_TerminalError (e : exn) : bool :=
  match e with
  | TerminalError _ _ _ => true
  | _ => false
  end.

(** [str(e)] *)
Definition exn_str (e : exn) : string :=
  match e with
  | PyExc _ msg => msg
  | TerminalError _ msg _ => msg
  | Failed msg => msg
  end.

Inductive outcome (A : Type) : Type :=
| Return (a : A)
| Raise (e : exn).
Arguments Return {A} a.
Arguments Raise {A} e.

(** Computations on the session: the emulator is a shared mutable object,
    so what a call did to it stays done when the call raises. *)
Definition M (A : Type) : Type := Emulator -> outcome A * Emulator.

Definition ret {A} (a : A) : M A := fun em => (Return a, em).

Definition raise {A} (e : exn) : M A := fun em => (Raise e, em).

Definition bind {A B} (m : M A) (k : A -> M B) : M B :=
  fun em =>
    match m em with
    | (Return a, em') => k a em'
    | (Raise e, em') => (Raise e, em')
    end.

(** [try: body  except Exception as e: handler] *)
Definition try_except {A} (body : M A) (handler : exn -> M A) : M A :=
  fun em =>
    match body em with
    | (Return a, em') => (Return a, em')
    | (Raise e, em') =>
        if is_Exception e then handler e em' else (Raise e, em')
    end.

Declare Scope py_scope.
Delimit Scope py_scope with py.
Notation "x <- m ;; k" := (bind m (fun x => k))
  (at level 100, m at next level, right associativity) : py_scope.
Notation "m ;;; k" := (bind m (fun _ => k))
  (at level 100, right associativity) : py_scope.
Open Scope py_scope.

(** *** The calls on the emulator that the module uses

    Rows and columns count from 1 in these calls; [string_get] gives the
    characters of a region of one row, [move_to] places the cursor,
    [send_string] types at the cursor, [exec_command] sends an action and
    [wait_for_field] blocks until the device takes input again. *)

Module Device.

Definition log (ev : event) (em : Emulator) : Emulator :=
  {| screen := screen em; cursor := cursor em;
     journal := journal em ++ [ev]; budget := budget em |}.

Definition set_screen (scr : list string) (cur : nat * nat) (em : Emulator)
  : Emulator :=
  {| screen := scr; cursor := cur; journal := journal em; budget := budget em |}.

(** Every call on the emulator goes to the s3270 process: it is entered
    in the journal, and it raises once the session no longer answers. *)
Definition call (ev : event) : M unit :=
  fun em =>
    let em' := log ev em in
    match budget em with
    | None => (Return tt, em')
    | Some (S n) =>
        (Return tt,
         {| screen := screen em'; cursor := cursor em';
            journal := journal em'; budget := Some n |})
    | Some O => (Raise (PyExc CommandError "emulator is not answering"), em')
    end.

(** The text of [length] cells of row [row] from column [col] on
    (1-based, as py3270 counts); [None] when the region is not on the
    row: [string_get] accepts a single line of data only. *)
Definition region (scr : list string) (row col length : Z) : option string :=
  if (1 <=? row) && (1 <=? col) && (0 <=? length) then
    match nth_error scr (Z.to_nat (row - 1)) with
    | Some line =>
        if col + length - 1 <=? PyStr.len line
        then Some (substring (Z.to_nat (col - 1)) (Z.to_nat length) line)
        else None
    | None => None
    end
  else None.

Definition string_get (row col length : Z) : M string :=
  call (StringGet row col length) ;;;
  fun em =>
    match region (screen em) row col length with
    | Some text => (Return text, em)
    | None => (Raise (PyExc CommandError "Ascii: invalid region"), em)
    end.

Definition width (scr : list string) (r : nat) : nat :=
  match nth_error scr r with
  | Some line => String.length line
  | None => O
  end.

Definition move_to (row col : Z) : M unit :=
  call (MoveTo row col) ;;;
  fun em =>
    if (1 <=? row) && (row <=? Z.of_nat (List.length (screen em)))
       && (1 <=? col) && (col <=? Z.of_nat (width (screen em) (Z.to_nat (row - 1))))
    then (Return tt,
          set_screen (screen em) (Z.to_nat (row - 1), Z.to_nat (col - 1)) em)
    else (Raise (PyExc CommandError "MoveCursor: invalid position"), em).

(** Replace the character at index [n] of [line]. *)
Fixpoint set_char (n : nat) (c : ascii) (line : string) {struct line} : string :=
  match line, n with
  | EmptyString, _ => EmptyString
  | String _ rest, O => String c rest
  | String b rest, S n' => String b (set_char n' c rest)
  end.

Fixpoint set_row (r : nat) (f : string -> string) (scr : list string)
    {struct scr} : list string :=
  match scr, r with
  | [], _ => []
  | line :: rest, O => f line :: rest
  | line :: rest, S r' => line :: set_row r' f rest
  end.

(** The cell after [pos]: the next column, past the end of a row the
    first column of the next row, past the last row the top left. *)
Definition advance (scr : list string) (pos : nat * nat) : nat * nat :=
  let (r, c) := pos in
  if (S c <? width scr r)%nat then (r, S c)
  else if (S r <? List.length scr)%nat then (S r, O)
  else (O, O).

(** Typing [text] from [pos] on: each character replaces the one under
    the cursor, and the cursor moves on. *)
Fixpoint type_text (text : string) (pos : nat * nat) (scr : list string)
  : (nat * nat) * list string :=
  match text with
  | EmptyString => (pos, scr)
  | String c rest =>
      type_text rest (advance scr pos) (set_row (fst pos) (set_char (snd pos) c) scr)
  end.

Definition send_string (text : string) : M unit :=
  call (SendString text) ;;;
  fun em =>
    let (cur, scr) := type_text text (cursor em) (screen em) in
    (Return tt, set_screen scr cur em).

(** [exec_command] hands back the [Command] object; the caller sees
    only that it is one. *)
Definition exec_command (cmd : string) : M unit := call (Exec cmd).

Definition send_enter : M unit := exec_command "Enter".

Definition send_pf (value : string) : M unit :=
  exec_command ("PF(" ++ value ++ ")").

Definition wait_for_field : M unit := call WaitForField.

End Device.

(** [time.sleep(seconds)] *)
Definition sleep (seconds : Q) : M unit :=
  fun em => (Return tt, Device.log (Sleep seconds) em).

(** ** base_page.py: class Utils *)

Module Utils.

(** [Utils.wait(seconds)] *)
Definition wait (seconds : Q) : M unit := sleep seconds.

(** The column the write path moves the cursor to. *)
Definition send_col (idx : Z) (field : string) (offset : Z) : Z :=
  idx + PyStr.len field + offset.

(** The column the read path reports. *)
Definition position_col (idx : Z) (field : string) (offset : Z) : Z :=
  if offset >=? 0 then idx + PyStr.len field + offset
  else idx - Z.abs offset + 1.

(** The [for row in range(1, rows + 1)] loop of [find_and_send_text]. *)
Fixpoint find_and_send_text_rows (todo : list Z) (cols : Z)
    (field value : string) (offset : Z) : M bool :=
  match todo with
  | [] => ret false
  | row :: rest =>
      line <- Device.string_get row 1 cols ;;
      let idx := PyStr.find line field in
      if negb (idx =? -1) then
        let col := send_col idx field offset in
        Device.move_to row col ;;;
        Device.send_string value ;;;
        ret true
      else find_and_send_text_rows rest cols field value offset
  end.

Definition find_and_send_text (config : TerminalConfig)
    (field value : string) (offset : Z) : M bool :=
  let rows := SCREEN_ROWS config in
  let cols := SCREEN_COLS config in
  find_and_send_text_rows (PyStr.range 1 (rows + 1)) cols field value offset.

(** The loop of [find_text_position]; [None] is Python's [None]. *)
Fixpoint find_text_position_rows (todo : list Z) (cols : Z)
    (field : string) (offset : Z) : M (option (Z * Z)) :=
  match todo with
  | [] => ret None
  | row :: rest =>
      line <- Device.string_get row 1 cols ;;
      let idx := PyStr.find line field in
      if negb (idx =? -1) then ret (Some (row, position_col idx field offset))
      else find_text_position_rows rest cols field offset
  end.

Definition find_text_position (config : TerminalConfig)
    (field : string) (offset : Z) : M (option (Z * Z)) :=
  let rows := SCREEN_ROWS config in
  let cols := SCREEN_COLS config in
  find_text_position_rows (PyStr.range 1 (rows + 1)) cols field offset.

(** The loop of [get_screen], appending to [screen]. *)
Fixpoint get_screen_rows (todo : list Z) (cols : Z) (acc : list string)
  : M (list string) :=
  match todo with
  | [] => ret acc
  | row :: rest =>
      line <- Device.string_get row 1 cols ;;
      get_screen_rows rest cols (acc ++ [line])
  end.

Definition get_screen (config : TerminalConfig) : M (list string) :=
  let rows := SCREEN_ROWS config in
  let cols := SCREEN_COLS config in
  get_screen_rows (PyStr.range 1 (rows + 1)) cols [].

(** A position is a non-empty tuple, so [if position:] asks only whether
    it is [None]. *)
Definition get_value_from_field (config : TerminalConfig)
    (field : string) (offset length : Z) : M (option string) :=
  position <- find_text_position config field offset ;;
  match position with
  | Some (row, col) =>
      value <- Device.string_get row col length ;;
      ret (Some (PyStr.strip value))
  | None => ret None
  end.

(** The bound methods [send_key] stores without calling them. *)
Inductive method : Set :=
| send_enter | send_pf2 | send_pf4 | send_pf5 | send_pf6 | send_pf7 | send_pf8.

(** Calling a stored bound method. *)
Definition call_method (m : method) : M unit :=
  match m with
  | send_enter => Device.send_enter
  | send_pf2 => Device.exec_command "PF(2)"
  | send_pf4 => Device.exec_command "PF(4)"
  | send_pf5 => Device.exec_command "PF(5)"
  | send_pf6 => Device.exec_command "PF(6)"
  | send_pf7 => Device.exec_command "PF(7)"
  | send_pf8 => Device.exec_command "PF(8)"
  end.

(** The value expressions of the dictionary display in [send_key]: a
    bound method, or a call made while the dictionary is built. *)
Inductive entry_expr : Set :=
| Attr (m : method)                 (* em.send_enter *)
| CallExecCommand (cmd : string)    (* em.exec_command(b'Tab') *)
| CallSendPf (value : string).      (* em.send_pf('1') *)

(** What such an expression leaves in the dictionary. *)
Inductive entry_value : Set :=
| BoundMethod (m : method)
| CommandObject (cmd : string)      (* what exec_command returned *)
| NoneValue.                        (* what send_pf returned *)

(** The dictionary display, entry by entry as written. *)
Definition key_methods_display : list (Key * entry_expr) :=
  [ (ENTER, Attr send_enter);
    (TAB, CallExecCommand "Tab");
    (CLEAR, CallExecCommand "Clear");
    (RESET, CallExecCommand "Reset");
    (BACKSPACE, CallExecCommand "Backspace");
    (DELETE, CallExecCommand "Delete");
    (NEWLINE, CallExecCommand "Newline");
    (PF1, CallSendPf "1");
    (PF2, CallSendPf "2");
    (PF3, Attr send_pf2);
    (PF4, Attr send_pf4);
    (PF5, Attr send_pf5);
    (PF6, Attr send_pf6);
    (PF7, Attr send_pf7);
    (PF8, Attr send_pf8);
    (PF9, CallSendPf "9");
    (PF10, CallSendPf "10");
    (PF11, CallSendPf "11");
    (PF12, CallSendPf "12");
    (PF13, CallSendPf "13");
    (PF14, CallSendPf "14");
    (PF15, CallSendPf "15");
    (PF16, CallSendPf "16");
    (PF17, CallSendPf "17");
    (PF18, CallSendPf "18");
    (PF19, CallSendPf "19");
    (PF20, CallSendPf "20");
    (PF21, CallSendPf "21");
    (PF22, CallSendPf "22");
    (PF23, CallSendPf "23");
    (PF24, CallSendPf "24");
    (PA1, CallExecCommand "PA1");
    (PA2, CallExecCommand "PA2");
    (PA3, CallExecCommand "PA3") ].

Definition eval_entry (e : entry_expr) : M entry_value :=
  match e with
  | Attr m => ret (BoundMethod m)
  | CallExecCommand cmd => Device.exec_command cmd ;;; ret (CommandObject cmd)
  | CallSendPf value => Device.send_pf value ;;; ret NoneValue
  end.

(** Python evaluates a dictionary display left to right. *)
Fixpoint build_dict (display : list (Key * entry_expr))
  : M (list (Key * entry_value)) :=
  match display with
  | [] => ret []
  | (k, e) :: rest =>
      v <- eval_entry e ;;
      d <- build_dict rest ;;
      ret ((k, v) :: d)
  end.

(** [key_methods[key]], when [key in key_methods]. *)
Fixpoint lookup (key : key_arg) (d : list (Key * entry_value))
  : option entry_value :=
  match d with
  | [] => None
  | (k, v) :: rest =>
      match key with
      | Member k' => if Key_eq_dec k' k then Some v else lookup key rest
      | Foreign _ => None
      end
  end.

(** [v()] *)
Definition call_value (v : entry_value) : M unit :=
  match v with
  | BoundMethod m => call_method m
  | CommandObject _ => raise (PyExc TypeError "'Command' object is not callable")
  | NoneValue => raise (PyExc TypeError "'NoneType' object is not callable")
  end.

Definition send_key (key : key_arg) (wait : bool) : M unit :=
  key_methods <- build_dict key_methods_display ;;
  match lookup key key_methods with
  | Some v =>
      call_value v ;;;
      if wait then sleep 1 ;;; Device.wait_for_field else ret tt
  | None =>
      raise (PyExc ValueError ("Tecla " ++ key_str key ++ " não suportada"))
  end.

(** The [for char in value] loop of [send_text]. *)
Fixpoint send_text_chars (todo : list string) (delay : Q) : M unit :=
  match todo with
  | [] => ret tt
  | char :: rest =>
      Device.send_string char ;;;
      sleep delay ;;;
      send_text_chars rest delay
  end.

Definition send_text (config : TerminalConfig) (value : string) : M unit :=
  send_text_chars (PyStr.chars value) (CHAR_DELAY config) ;;;
  Device.wait_for_field.

End Utils.

(** ** base_page.py: the exception classes *)

Module Errors.

(** [pytest.fail(reason)] *)
Definition pytest_fail {A} (reason : string) : M A := raise (Failed reason).

(** [TerminalError.__init__]: the message gets the screen appended when
    there is (non-empty) screen content, is logged, and is handed to
    [pytest.fail].  The value is the exception object a finished
    constructor would give. *)
Definition TerminalError_init (kind : terminal_kind) (message : string)
    (screen_content : option string) : M exn :=
  let error_msg :=
    match screen_content with
    | None | Some EmptyString => message
    | Some content =>
        message ++ PyStr.newline ++ "Conteúdo da tela:" ++ PyStr.newline ++ content
    end in
  @pytest_fail unit error_msg ;;;
  ret (TerminalError kind error_msg screen_content).

(** The capture shared by [FieldNotFoundError], [InputError] and
    [KeyError]; [emulator] says whether an emulator was passed. *)
Definition capture (config : TerminalConfig) (emulator : bool)
  : M (option string) :=
  if emulator then
    lines <- Utils.get_screen config ;;
    ret (Some (PyStr.join PyStr.newline lines))
  else ret None.

Definition new_FieldNotFoundError (config : TerminalConfig) (field : string)
    (emulator : bool) : M exn :=
  screen_content <- capture config emulator ;;
  TerminalError_init FieldNotFoundError
    ("Campo " ++ PyStr.dquote ++ field ++ PyStr.dquote ++ " não encontrado na tela")
    screen_content.

Definition new_InputError (config : TerminalConfig) (field value error : string)
    (emulator : bool) : M exn :=
  screen_content <- capture config emulator ;;
  TerminalError_init InputError
    ("Erro ao inserir " ++ PyStr.dquote ++ value ++ PyStr.dquote ++ " no campo "
       ++ PyStr.dquote ++ field ++ PyStr.dquote ++ ": " ++ error)
    screen_content.

(** [key.name]: the members of the enum have it; the other objects
    modelled here (a string, a number, [None]) do not. *)
Definition name_of (key : key_arg) : M string :=
  match key with
  | Member k => ret (Key_name k)
  | Foreign _ => raise (PyExc AttributeError "object has no attribute 'name'")
  end.

Definition new_KeyError (config : TerminalConfig) (key : key_arg) (error : string)
    (emulator : bool) : M exn :=
  screen_content <- capture config emulator ;;
  name <- name_of key ;;
  TerminalError_init KeyError
    ("Erro ao enviar tecla " ++ name ++ ": " ++ error)
    screen_content.

(** [ScreenError] guards its capture: a failing read leaves a note in
    place of the screen. *)
Definition new_ScreenError (config : TerminalConfig) (error operation : string)
    (emulator : bool) : M exn :=
  screen_content <-
    (if emulator then
       try_except
         (screen_lines <- Utils.get_screen config ;;
          match screen_lines with
          | [] => ret None
          | _ => ret (Some (PyStr.join PyStr.newline screen_lines))
          end)
         (fun e =>
            ret (Some ("Não foi possível capturar o conteúdo da tela: " ++ exn_str e)))
     else ret None) ;;
  TerminalError_init ScreenError
    ("Erro ao " ++ operation ++ ": " ++ error)
    screen_content.

End Errors.

(** ** base_page.py: class BasePage *)

Module BasePage.

(** [raise Cls(...)]: build the exception, then raise it. *)
Definition raise_new {A} (ctor : M exn) : M A := e <- ctor ;; raise e.

(** The [except Exception as e] clause of [input_text]: it raises only
    for what is not a [TerminalError]; otherwise the method falls off its
    end and returns [None]. *)
Definition input_text_except (config : TerminalConfig) (field value : string)
    (e : exn) : M (option bool) :=
  if negb (is_TerminalError e)
  then raise_new (Errors.new_InputError config field value (exn_str e) true)
  else ret None.

Definition input_text (config : TerminalConfig) (field value : string)
    (offset : Z) : M (option bool) :=
  try_except
    (r <- Utils.find_and_send_text config field value offset ;;
     if negb r then raise_new (Errors.new_FieldNotFoundError config field true)
     else ret (Some r))
    (input_text_except config field value).

Definition input_key (config : TerminalConfig) (key : key_arg) (wait : bool)
  : M unit :=
  Errors.name_of key ;;;
  try_except
    (Utils.send_key key wait)
    (fun e =>
       if negb (is_TerminalError e)
       then raise_new (Errors.new_KeyError config key (exn_str e) true)
       else ret tt).

Definition input_string (config : TerminalConfig) (value : string) : M unit :=
  try_except
    (Utils.send_text config value)
    (fun e =>
       if negb (is_TerminalError e)
       then raise_new (Errors.new_InputError config EmptyString value (exn_str e) true)
       else ret tt).

Definition get_value (config : TerminalConfig) (field : string)
    (offset length : Z) : M (option string) :=
  try_except
    (value <- Utils.get_value_from_field config field offset length ;;
     match value with
     | None => raise_new (Errors.new_FieldNotFoundError config field true)
     | Some v => ret (Some v)
     end)
    (fun e =>
       if negb (is_TerminalError e)
       then raise_new (Errors.new_FieldNotFoundError config field true)
       else ret None).

Definition get_screen (config : TerminalConfig) : M (option (list string)) :=
  try_except
    (scr <- Utils.get_screen config ;;
     match scr with
     | [] => raise_new (Errors.new_ScreenError config "Tela vazia ou inválida" "capturar tela" true)
     | _ => ret (Some scr)
     end)
    (fun e =>
       if negb (is_TerminalError e)
       then raise_new (Errors.new_ScreenError config (exn_str e) "capturar tela" true)
       else ret None).

End BasePage.

(** ** base_page.py: [BasePage.print_screen] *)











(** ** emulator_factory.py: class EmulatorFactory *)

Module Factory.

(** An instance attribute: not yet assigned, or bound to a value. *)
Inductive attribute (A : Type) : Type :=
| Missing
| Bound (v : A).
Arguments Missing {A}.
Arguments Bound {A} v.

(** The process as the factory sees it: the py3270 emulators created so
    far ([objects], an emulator being known by its place in the list),
    the class attribute [_instance], and the two instance attributes of
    the factory at hand, [emulator] and [emulador]; a [None] in Python
    is a [None] here. *)
Record Process : Set := mkProcess {
  objects : list Emulator;
  instance : option nat;
  emulator : attribute (option nat);
  emulador : attribute (option nat)
}.

Definition F (A : Type) : Type := Process -> outcome A * Process.

Definition f_ret {A} (a : A) : F A := fun p => (Return a, p).

Definition f_raise {A} (e : exn) : F A := fun p => (Raise e, p).

Definition f_bind {A B} (m : F A) (k : A -> F B) : F B :=
  fun p =>
    match m p with
    | (Return a, p') => k a p'
    | (Raise e, p') => (Raise e, p')
    end.

(** [try: body  except Exception as e: handler] *)
Definition f_try_except {A} (body : F A) (handler : exn -> F A) : F A :=
  fun p =>
    match body p with
    | (Return a, p') => (Return a, p')
    | (Raise e, p') =>
        if is_Exception e then handler e p' else (Raise e, p')
    end.

Fixpoint put (h : nat) (em : Emulator) (objs : list Emulator) : list Emulator :=
  match objs, h with
  | [], _ => []
  | _ :: rest, O => em :: rest
  | o :: rest, S h' => o :: put h' em rest
  end.

(** A call on the emulator [h]. *)
Definition on_emulator {A} (h : nat) (m : M A) : F A :=
  fun p =>
    match nth_error (objects p) h with
    | Some em =>
        let (r, em') := m em in
        (r, {| objects := put h em' (objects p); instance := instance p;
               emulator := emulator p; emulador := emulador p |})
    | None => (Raise (PyExc AttributeError "no such emulator"), p)
    end.

(** [self.emulador = v] *)
Definition set_emulador (v : option nat) : F unit :=
  fun p =>
    (Return tt, {| objects := objects p; instance := instance p;
                   emulator := emulator p; emulador := Bound v |}).

(** [self.emulador], read. *)
Definition get_emulador : F (option nat) :=
  fun p =>
    match emulador p with
    | Bound v => (Return v, p)
    | Missing =>
        (Raise (PyExc AttributeError
                  "'EmulatorFactory' object has no attribute 'emulador'"), p)
    end.

(** [EmulatorError(message)] and its subclasses have no constructor of
    their own: [TerminalError.__init__] runs with no screen content, so
    the message goes to [pytest.fail] as it is. *)
Definition raise_EmulatorError {A} (message : string) : F A :=
  f_raise (Failed message).

(** [EmulatorFactory()]: [__init__] binds [emulator], not [emulador]. *)
Definition init (p : Process) : Process :=
  {| objects := objects p; instance := instance p;
     emulator := Bound None; emulador := Missing |}.

(** [EmulatorFactory.get_instance()] *)
Definition get_instance : F (option nat) := fun p => (Return (instance p), p).

(** [EmulatorFactory.set_instance(emulator)] *)
Definition set_instance (v : option nat) : F unit :=
  fun p =>
    (Return tt, {| objects := objects p; instance := v;
                   emulator := emulator p; emulador := emulador p |}).

(** [Emulator(visible=visible)]: what the constructor of py3270 does is
    given from outside, a new emulator in some state or an exception. *)
Definition construct (boot : outcome Emulator) : F nat :=
  fun p =>
    match boot with
    | Return em =>
        (Return (List.length (objects p)),
         {| objects := objects p ++ [em]; instance := instance p;
            emulator := emulator p; emulador := emulador p |})
    | Raise e => (Raise e, p)
    end.

(** Modelled from the spec: [connect(address)] of the underlying session
    ([em.connect(host)] of py3270), one command to the emulator. *)
Definition connect (host : string) : M unit :=
  Device.exec_command ("Connect(" ++ host ++ ")").

(** Modelled from the spec: [disconnect()] of the underlying session
    ([em.terminate()] of py3270), one command to the emulator. *)
Definition terminate : M unit := Device.exec_command "Quit".

Definition create_emulator (host : string) (boot : outcome Emulator) : F unit :=
  f_try_except
    (f_bind (construct boot) (fun h =>
     f_bind (set_emulador (Some h)) (fun _ =>
     f_bind get_emulador (fun e1 =>
     f_bind (match e1 with
             | Some h1 => on_emulator h1 (connect host)
             | None => f_raise (PyExc AttributeError
                                  "'NoneType' object has no attribute 'connect'")
             end) (fun _ =>
     f_bind get_emulador (fun e2 =>
     f_bind (match e2 with
             | Some h2 => on_emulator h2 Device.wait_for_field
             | None => f_raise (PyExc AttributeError
                                  "'NoneType' object has no attribute 'wait_for_field'")
             end) (fun _ =>
     f_bind get_emulador (fun e3 =>
     set_instance e3))))))))
    (fun e =>
       f_bind (set_emulador None) (fun _ =>
       raise_EmulatorError ("Falha ao criar emulador: " ++ exn_str e))).

Definition terminate_emulator : F unit :=
  f_try_except
    (f_bind get_emulador (fun e1 =>
       match e1 with
       | Some h =>
           f_bind (on_emulator h terminate) (fun _ =>
           f_bind (set_emulador None) (fun _ =>
           set_instance None))
       | None => f_ret tt
       end))
    (fun e => raise_EmulatorError ("Falha ao terminar emulador: " ++ exn_str e)).

Definition get_emulator : F nat :=
  f_try_except
    (f_bind get_emulador (fun e1 =>
       match e1 with
       | None => raise_EmulatorError "Emulador não foi inicializado"
       | Some h => f_ret h
       end))
    (fun e => raise_EmulatorError ("Falha ao obter emulador: " ++ exn_str e)).

Definition is_connected : F bool :=
  f_try_except
    (f_bind get_emulador (fun e1 =>
       f_ret (match e1 with Some _ => true | None => false end)))
    (fun e =>
       raise_EmulatorError ("Falha ao verificar status de conexão: " ++ exn_str e)).

End Factory.

(** ** Sessions to run the functions on *)

(** A line of [n] spaces. *)
Fixpoint spaces (n : nat) : string :=
  match n with
  | O => EmptyString
  | S n' => String " "%char (spaces n')
  end.

(** [text] padded with spaces to [cols] characters. *)
Definition pad (cols : nat) (text : string) : string :=
  text ++ spaces (cols - String.length text).

(** A [rows] x [cols] screen that is blank but for [text] at the start of
    row [r] (1-based). *)
Definition screen_with (rows cols r : nat) (text : string) : list string :=
  map (fun i => if Nat.eqb i r then pad cols text else spaces cols) (seq 1 rows).

(** A session that stays up, showing [scr], cursor top left, nothing
    asked of it yet. *)
Definition session (scr : list string) : Emulator :=
  {| screen := scr; cursor := (O, O); journal := []; budget := None |}.

(** The same screen on a session that answers [n] more calls and then
    no longer. *)
Definition fading_session (n : nat) (scr : list string) : Emulator :=
  {| screen := scr; cursor := (O, O); journal := []; budget := Some n |}.

(** The same screen on a session that no longer answers. *)
Definition dead_session (scr : list string) : Emulator := fading_session 0 scr.

(** ** What the statements speak of *)

(** [field] stands in [line] from index [i] (0-based) on. *)
Definition occurs_at (field line : string) (i : nat) : Prop :=
  substring i (String.length field) line = field.

(** [field] stands nowhere in [line]. *)
Definition absent (field line : string) : Prop :=
  forall i, ~ occurs_at field line i.

(** [i] is the index of the leftmost occurrence of [field] in [line]. *)
Definition leftmost (field line : string) (i : nat) : Prop :=
  occurs_at field line i /\ forall j, (j < i)%nat -> ~ occurs_at field line j.

(** The text of row [row] (1-based) of the screen. *)
Definition row_text (em : Emulator) (row : Z) : option string :=
  nth_error (screen em) (Z.to_nat (row - 1)).

(** [row] is the first row, from the top, in which [field] stands, and
    [idx] the 0-based index of its leftmost occurrence there. *)
Definition first_match (em : Emulator) (field : string) (row idx : Z) : Prop :=
  1 <= row /\ 0 <= idx /\
  exists line,
    row_text em row = Some line /\
    leftmost field line (Z.to_nat idx) /\
    forall row' line', 1 <= row' < row ->
      row_text em row' = Some line' -> absent field line'.

(** [field] stands in no row of the screen. *)
Definition absent_everywhere (em : Emulator) (field : string) : Prop :=
  forall line, In line (screen em) -> absent field line.

(** The session answers, and its screen is the grid the configuration
    describes: [SCREEN_ROWS] rows of exactly [SCREEN_COLS] characters. *)
Definition shows (config : TerminalConfig) (em : Emulator) : Prop :=
  budget em = None /\
  Z.of_nat (List.length (screen em)) = SCREEN_ROWS config /\
  forallb (fun line => PyStr.len line =? SCREEN_COLS config) (screen em) = true.

(** What a scanning loop needs of the rows [todo] it passes without a
    match: they are on the screen, [cols] wide, and without the label. *)
Definition passes (em : Emulator) (cols : Z) (field : string) (todo : list Z) : Prop :=
  forall row, In row todo ->
    1 <= row /\ exists line,
      row_text em row = Some line /\ PyStr.len line = cols /\
      PyStr.find line field = -1.

(** What a loop needs to read the rows [todo] at all. *)
Definition readable (em : Emulator) (cols : Z) (todo : list Z) : Prop :=
  forall row, In row todo ->
    1 <= row /\ exists line,
      row_text em row = Some line /\ PyStr.len line = cols.

(** The session with [evs] added to its journal. *)
Definition logged (evs : list event) (em : Emulator) : Emulator :=
  {| screen := screen em; cursor := cursor em;
     journal := journal em ++ evs; budget := budget em |}.

(** The full-row reads of rows [lo .. hi]. *)
Definition row_reads (config : TerminalConfig) (lo hi : Z) : list event :=
  map (fun row => StringGet row 1 (SCREEN_COLS config)) (PyStr.range lo (hi + 1)).

(** [text] written over [line] from index [c] on, one character after
    the other. *)
Fixpoint overwrite (c : nat) (text line : string) : string :=
  match text with
  | EmptyString => line
  | String ch rest => overwrite (S c) rest (Device.set_char c ch line)
  end.

(** The message of a [TerminalError] that carries a screen. *)
Definition with_screen (message content : string) : string :=
  message ++ PyStr.newline ++ "Conteúdo da tela:" ++ PyStr.newline ++ content.

(** The commands [send_key] issues while it builds its dictionary. *)
Definition dictionary_commands : list event :=
  [Exec "Tab"; Exec "Clear"; Exec "Reset"; Exec "Backspace"; Exec "Delete";
   Exec "Newline"; Exec "PF(1)"; Exec "PF(2)"; Exec "PF(9)"; Exec "PF(10)";
   Exec "PF(11)"; Exec "PF(12)"; Exec "PF(13)"; Exec "PF(14)"; Exec "PF(15)";
   Exec "PF(16)"; Exec "PF(17)"; Exec "PF(18)"; Exec "PF(19)"; Exec "PF(20)";
   Exec "PF(21)"; Exec "PF(22)"; Exec "PF(23)"; Exec "PF(24)"; Exec "PA1";
   Exec "PA2"; Exec "PA3"].

(** The journal [send_text] leaves for the characters [todo]. *)
Fixpoint typing_events (todo : list string) (delay : Q) : list event :=
  match todo with
  | [] => []
  | char :: rest => SendString char :: Sleep delay :: typing_events rest delay
  end.

(** [ev] is a read of the screen. *)
Definition is_read (ev : event) : Prop :=
  match ev with
  | StringGet _ _ _ => True
  | _ => False
  end.

(** [em'] is [em] after reads and nothing else: the same screen, the
    same cursor, the journal longer by reads only. *)
Definition after_reads (em em' : Emulator) : Prop :=
  screen em' = screen em /\ cursor em' = cursor em /\
  exists evs, journal em' = (journal em ++ evs)%list /\ Forall is_read evs.

(** Every character of [s] is one that [str.strip()] removes. *)
Definition blank (s : string) : Prop :=
  forall i c, String.get i s = Some c -> PyStr.is_space c = true.


(** * Properties *)

(** ** Strings *)

Lemma substring_all (s : string) : substring 0 (String.length s) s = s.
Proof. induction s as [|c s IH]; simpl; [reflexivity | now rewrite IH]. Qed.

Lemma substring_none (s : string) : forall n, substring n 0 s = EmptyString.
Proof.
  induction s as [|c s IH]; intros n; destruct n; simpl; try reflexivity.
  apply IH.
Qed.

Lemma substring_plus (s : string) :
  forall n a b, substring n (a + b) s = (substring n a s ++ substring (n + a) b s)%string.
Proof.
  induction s as [|c s IH]; intros n a b.
  - destruct n, a, b; reflexivity.
  - destruct n as [|n].
    + destruct a as [|a]; simpl.
      * destruct b; reflexivity.
      * rewrite (IH 0%nat a b). reflexivity.
    + simpl. apply IH.
Qed.

Lemma find_of_leftmost (field line : string) (i : nat) :
  leftmost field line i -> PyStr.find line field = Z.of_nat i.
Proof.
  intros [Hocc Hmin]. unfold PyStr.find.
  destruct (index 0 field line) as [m|] eqn:E.
  - f_equal.
    destruct (Nat.lt_trichotomy m i) as [Hlt | [Heq | Hgt]].
    + exfalso. apply (Hmin m Hlt). apply (index_correct1 _ _ _ _ E).
    + exact Heq.
    + exfalso. apply (index_correct2 _ _ _ _ E i); [lia | exact Hgt | exact Hocc].
  - exfalso. destruct field as [|c f].
    + apply index_correct4 in E. lia.
    + apply (index_correct3 0 i _ _ E); [discriminate | lia | exact Hocc].
Qed.

Lemma find_of_absent (field line : string) :
  absent field line -> PyStr.find line field = -1.
Proof.
  intros Habs. unfold PyStr.find.
  destruct (index 0 field line) as [m|] eqn:E; [|reflexivity].
  exfalso. apply (Habs m). apply (index_correct1 _ _ _ _ E).
Qed.

Lemma leftmost_of_find (field line : string) (idx : Z) :
  PyStr.find line field = idx -> idx <> -1 -> leftmost field line (Z.to_nat idx).
Proof.
  unfold PyStr.find. intros E Hne.
  destruct (index 0 field line) as [m|] eqn:E'; [|congruence].
  subst idx. rewrite Nat2Z.id. split.
  - apply (index_correct1 _ _ _ _ E').
  - intros j Hj. apply (index_correct2 _ _ _ _ E' j); [lia | exact Hj].
Qed.

Lemma absent_of_find (field line : string) :
  PyStr.find line field = -1 -> absent field line.
Proof.
  unfold PyStr.find. intros E i.
  destruct (index 0 field line) as [m|] eqn:E'; [lia|].
  destruct field as [|c f].
  - apply index_correct4 in E'. lia.
  - apply (index_correct3 0 i _ _ E'); [discriminate | lia].
Qed.

Lemma find_nonneg (field line : string) :
  PyStr.find line field <> -1 -> 0 <= PyStr.find line field.
Proof. unfold PyStr.find. destruct (index 0 field line); lia. Qed.

(** ** The session *)

Lemma logged_nil (em : Emulator) : logged [] em = em.
Proof. destruct em; unfold logged; simpl. now rewrite app_nil_r. Qed.

Lemma log_logged (ev : event) (evs : list event) (em : Emulator) :
  logged evs (Device.log ev em) = logged (ev :: evs) em.
Proof. unfold logged, Device.log; simpl. now rewrite <- app_assoc. Qed.

Lemma logged_logged (evs evs' : list event) (em : Emulator) :
  logged evs' (logged evs em) = logged (evs ++ evs')%list em.
Proof. unfold logged; simpl. now rewrite <- app_assoc. Qed.

Lemma log_after_logged (ev : event) (evs : list event) (em : Emulator) :
  Device.log ev (logged evs em) = logged (evs ++ [ev])%list em.
Proof. unfold logged, Device.log; simpl. now rewrite <- app_assoc. Qed.

Lemma call_alive (ev : event) (em : Emulator) :
  budget em = None -> Device.call ev em = (Return tt, Device.log ev em).
Proof. intros H. unfold Device.call. now rewrite H. Qed.

(** A row that is on the screen and as wide as asked is read whole. *)
Lemma string_get_row (em : Emulator) (row cols : Z) (line : string) :
  budget em = None -> 1 <= row -> row_text em row = Some line ->
  PyStr.len line = cols ->
  Device.string_get row 1 cols em
  = (Return line, Device.log (StringGet row 1 cols) em).
Proof.
  intros Hb Hrow Hline Hlen. unfold Device.string_get, bind.
  rewrite (call_alive _ _ Hb). unfold Device.region. simpl screen.
  unfold row_text in Hline. rewrite Hline.
  replace (1 <=? row) with true by (symmetry; apply Z.leb_le; lia).
  replace (0 <=? cols) with true
    by (symmetry; apply Z.leb_le; unfold PyStr.len in Hlen; lia).
  replace (1 + cols - 1 <=? PyStr.len line) with true
    by (symmetry; apply Z.leb_le; lia).
  simpl. unfold PyStr.len in Hlen. rewrite <- Hlen, Nat2Z.id, substring_all.
  reflexivity.
Qed.

Lemma shows_logged (config : TerminalConfig) (evs : list event) (em : Emulator) :
  shows config em -> shows config (logged evs em).
Proof. intros H. exact H. Qed.

Lemma shows_row (config : TerminalConfig) (em : Emulator) (row : Z) :
  shows config em -> 1 <= row <= SCREEN_ROWS config ->
  exists line, row_text em row = Some line /\ PyStr.len line = SCREEN_COLS config.
Proof.
  intros (_ & Hrows & Hcols) Hrow. unfold row_text.
  destruct (nth_error (screen em) (Z.to_nat (row - 1))) as [line|] eqn:E.
  - exists line. split; [reflexivity|].
    rewrite forallb_forall in Hcols. apply Z.eqb_eq, Hcols.
    eapply nth_error_In, E.
  - apply nth_error_None in E. lia.
Qed.

Lemma row_text_in (em : Emulator) (row : Z) (line : string) :
  row_text em row = Some line -> In line (screen em).
Proof. unfold row_text. apply nth_error_In. Qed.

Lemma row_text_bound (config : TerminalConfig) (em : Emulator) (row : Z) (line : string) :
  shows config em -> 1 <= row -> row_text em row = Some line ->
  row <= SCREEN_ROWS config.
Proof.
  intros (_ & Hrows & _) Hrow E. unfold row_text in E.
  assert (Z.to_nat (row - 1) < List.length (screen em))%nat
    by (apply nth_error_Some; congruence).
  lia.
Qed.

(** ** Ranges *)

Lemma range_from_app (a b : nat) :
  forall lo, PyStr.range_from lo (a + b)
             = (PyStr.range_from lo a ++ PyStr.range_from (lo + Z.of_nat a) b)%list.
Proof.
  induction a as [|a IH]; intros lo; simpl.
  - now rewrite Z.add_0_r.
  - rewrite IH. do 3 f_equal. lia.
Qed.

Lemma in_range_from (n : nat) :
  forall lo row, In row (PyStr.range_from lo n) <-> lo <= row < lo + Z.of_nat n.
Proof.
  induction n as [|n IH]; intros lo row; simpl.
  - lia.
  - rewrite IH. lia.
Qed.

(** [range(1, rows + 1)] passes [row] after the rows above it. *)
Lemma range_split (rows row : Z) :
  1 <= row <= rows ->
  PyStr.range 1 (rows + 1)
  = (PyStr.range 1 row ++ row :: PyStr.range (row + 1) (rows + 1))%list.
Proof.
  intros H. unfold PyStr.range.
  replace (Z.to_nat (rows + 1 - 1))
    with (Z.to_nat (row - 1) + S (Z.to_nat (rows + 1 - (row + 1))))%nat by lia.
  rewrite range_from_app. cbn [PyStr.range_from].
  replace (1 + Z.of_nat (Z.to_nat (row - 1))) with row by lia.
  reflexivity.
Qed.

Lemma range_snoc (row : Z) :
  1 <= row -> PyStr.range 1 (row + 1) = (PyStr.range 1 row ++ [row])%list.
Proof.
  intros H. unfold PyStr.range.
  replace (Z.to_nat (row + 1 - 1)) with (Z.to_nat (row - 1) + 1)%nat by lia.
  rewrite range_from_app. cbn [PyStr.range_from].
  replace (1 + Z.of_nat (Z.to_nat (row - 1))) with row by lia.
  reflexivity.
Qed.

Lemma in_range (lo hi row : Z) :
  In row (PyStr.range lo hi) <-> lo <= row < hi.
Proof. unfold PyStr.range. rewrite in_range_from. lia. Qed.

(** ** The scanning loops *)

Lemma passes_log (ev : event) (em : Emulator) cols field todo :
  passes em cols field todo -> passes (Device.log ev em) cols field todo.
Proof. intros H. exact H. Qed.

Lemma passes_tail em cols field row todo :
  passes em cols field (row :: todo) -> passes em cols field todo.
Proof. intros H r Hr. apply H. now right. Qed.

Lemma position_rows_pass (cols : Z) (field : string) (offset : Z) :
  forall pre rest em,
    budget em = None -> passes em cols field pre ->
    Utils.find_text_position_rows (pre ++ rest)%list cols field offset em
    = Utils.find_text_position_rows rest cols field offset
        (logged (map (fun row => StringGet row 1 cols) pre) em).
Proof.
  induction pre as [|row pre IH]; intros rest em Hb Hp; simpl.
  - now rewrite logged_nil.
  - destruct (Hp row (or_introl eq_refl)) as (Hrow & line & Hline & Hlen & Hfind).
    unfold bind at 1. rewrite (string_get_row _ _ _ _ Hb Hrow Hline Hlen).
    rewrite Hfind, Z.eqb_refl. cbn [negb].
    rewrite IH; [now rewrite log_logged | exact Hb |].
    apply passes_log. eapply passes_tail, Hp.
Qed.

Lemma send_rows_pass (cols : Z) (field value : string) (offset : Z) :
  forall pre rest em,
    budget em = None -> passes em cols field pre ->
    Utils.find_and_send_text_rows (pre ++ rest)%list cols field value offset em
    = Utils.find_and_send_text_rows rest cols field value offset
        (logged (map (fun row => StringGet row 1 cols) pre) em).
Proof.
  induction pre as [|row pre IH]; intros rest em Hb Hp; simpl.
  - now rewrite logged_nil.
  - destruct (Hp row (or_introl eq_refl)) as (Hrow & line & Hline & Hlen & Hfind).
    unfold bind at 1. rewrite (string_get_row _ _ _ _ Hb Hrow Hline Hlen).
    rewrite Hfind, Z.eqb_refl. cbn [negb].
    rewrite IH; [now rewrite log_logged | exact Hb |].
    apply passes_log. eapply passes_tail, Hp.
Qed.

Lemma position_rows_hit (cols : Z) (field : string) (offset : Z)
    (row : Z) (rest : list Z) (em : Emulator) (line : string) (idx : Z) :
  budget em = None -> 1 <= row -> row_text em row = Some line ->
  PyStr.len line = cols -> PyStr.find line field = idx -> idx <> -1 ->
  Utils.find_text_position_rows (row :: rest) cols field offset em
  = (Return (Some (row, Utils.position_col idx field offset)),
     Device.log (StringGet row 1 cols) em).
Proof.
  intros Hb Hrow Hline Hlen Hfind Hne. simpl.
  unfold bind. rewrite (string_get_row _ _ _ _ Hb Hrow Hline Hlen).
  rewrite Hfind.
  replace (idx =? -1) with false by (symmetry; apply Z.eqb_neq; exact Hne).
  reflexivity.
Qed.

Lemma passes_above (config : TerminalConfig) (em : Emulator) (field : string)
    (row idx : Z) :
  shows config em -> first_match em field row idx ->
  passes em (SCREEN_COLS config) field (PyStr.range 1 row).
Proof.
  intros Hs (Hrow & Hidx & line & Hline & Hleft & Habove) r Hr.
  apply in_range in Hr. split; [lia|].
  assert (Hle : row <= SCREEN_ROWS config) by (eapply row_text_bound; eauto).
  destruct (shows_row config em r Hs) as (l & Hl & Hlen); [lia|].
  exists l. repeat split; try assumption.
  apply find_of_absent. eapply Habove; [|exact Hl]. lia.
Qed.

Lemma passes_all (config : TerminalConfig) (em : Emulator) (field : string) :
  shows config em -> absent_everywhere em field ->
  passes em (SCREEN_COLS config) field (PyStr.range 1 (SCREEN_ROWS config + 1)).
Proof.
  intros Hs Habs r Hr. apply in_range in Hr. split; [lia|].
  destruct (shows_row config em r Hs) as (l & Hl & Hlen); [lia|].
  exists l. repeat split; try assumption.
  apply find_of_absent, Habs. eapply row_text_in, Hl.
Qed.

Lemma row_reads_snoc (config : TerminalConfig) (row : Z) :
  1 <= row ->
  row_reads config 1 row
  = (map (fun r => StringGet r 1 (SCREEN_COLS config)) (PyStr.range 1 row)
       ++ [StringGet row 1 (SCREEN_COLS config)])%list.
Proof.
  intros H. unfold row_reads. rewrite (range_snoc row H), map_app. reflexivity.
Qed.

(** The read path on a screen that has the label: the rows down to the
    first match are read, and the match decides the position. *)
Lemma find_text_position_found (config : TerminalConfig) (em : Emulator)
    (field : string) (offset row idx : Z) :
  shows config em -> first_match em field row idx ->
  Utils.find_text_position config field offset em
  = (Return (Some (row, Utils.position_col idx field offset)),
     logged (row_reads config 1 row) em).
Proof.
  intros Hs Hm.
  pose proof (passes_above config em field row idx Hs Hm) as Hp.
  destruct Hm as (Hrow & Hidx & line & Hline & Hleft & Habove).
  assert (Hle : row <= SCREEN_ROWS config) by (eapply row_text_bound; eauto).
  destruct (shows_row config em row Hs) as (l & Hl & Hlen); [lia|].
  assert (l = line) by congruence. subst l.
  unfold Utils.find_text_position.
  rewrite (range_split (SCREEN_ROWS config) row) by lia.
  rewrite position_rows_pass by (try exact Hp; apply Hs).
  rewrite (position_rows_hit _ _ _ _ _ _ line idx);
    try assumption; try (apply Hs); try lia.
  - rewrite log_after_logged, (row_reads_snoc config row Hrow). reflexivity.
  - rewrite (find_of_leftmost _ _ _ Hleft). lia.
Qed.

(** [first_match], from a run of [str.find] over the rows down to [row]. *)
Lemma first_match_by_find (em : Emulator) (field : string) (row idx : Z)
    (line : string) :
  1 <= row -> row_text em row = Some line ->
  PyStr.find line field = idx -> idx <> -1 ->
  forallb (fun l => PyStr.find l field =? -1)
          (firstn (Z.to_nat (row - 1)) (screen em)) = true ->
  first_match em field row idx.
Proof.
  intros Hrow Hline Hfind Hne Habove.
  split; [exact Hrow|]. split.
  - subst idx. now apply find_nonneg.
  - exists line. split; [exact Hline|]. split.
    + now apply leftmost_of_find.
    + intros row' line' Hr' Hl'. apply absent_of_find.
      rewrite forallb_forall in Habove. apply Z.eqb_eq, Habove.
      apply (nth_error_In _ (Z.to_nat (row' - 1))).
      rewrite nth_error_firstn.
      replace (Z.to_nat (row' - 1) <? Z.to_nat (row - 1))%nat with true
        by (symmetry; apply Nat.ltb_lt; lia).
      exact Hl'.
Qed.

(** [absent_everywhere], from a run of [str.find] over all rows. *)
Lemma absent_everywhere_by_find (em : Emulator) (field : string) :
  forallb (fun l => PyStr.find l field =? -1) (screen em) = true ->
  absent_everywhere em field.
Proof.
  intros H line Hin. apply absent_of_find.
  rewrite forallb_forall in H. now apply Z.eqb_eq, H.
Qed.

(** ** The read path: [Utils.find_text_position] *)

(** C1 (as amended).  On a screen that shows the label, with [row] the
    first row that has it and [idx] the 0-based index [str.find] gives for
    its leftmost occurrence there, [find_text_position] returns
    [(row, idx + len(field) + offset)] for an offset that is not negative
    and [(row, idx - |offset| + 1)] for a negative one. *)
Theorem find_text_position_column (config : TerminalConfig) (em : Emulator)
    (field : string) (offset row idx : Z) :
  shows config em -> first_match em field row idx ->
  fst (Utils.find_text_position config field offset em)
  = Return (Some (row, if offset <? 0 then idx - Z.abs offset + 1
                       else idx + PyStr.len field + offset)).
Proof.
  intros Hs Hm. rewrite (find_text_position_found config em field offset row idx Hs Hm).
  simpl. unfold Utils.position_col.
  rewrite Z.geb_leb.
  destruct (offset <? 0) eqn:E.
  - apply Z.ltb_lt in E.
    replace (0 <=? offset) with false by (symmetry; apply Z.leb_gt; exact E).
    reflexivity.
  - apply Z.ltb_ge in E.
    replace (0 <=? offset) with true by (symmetry; apply Z.leb_le; exact E).
    reflexivity.
Qed.

(** Scenario B run through the theorem: the label at the start of row 5
    (index 0, that is column 1), offset 2, gives column 16. *)
Lemma find_text_position_column_witness :
  shows default_config (session (screen_with 24 80 5 "Password  ===>")) /\
  first_match (session (screen_with 24 80 5 "Password  ===>")) "Password  ===>" 5 0 /\
  fst (Utils.find_text_position default_config "Password  ===>" 2
         (session (screen_with 24 80 5 "Password  ===>")))
  = Return (Some (5, 16)).
Proof.
  assert (Hs : shows default_config (session (screen_with 24 80 5 "Password  ===>")))
    by (repeat split; vm_compute; reflexivity).
  assert (Hm : first_match (session (screen_with 24 80 5 "Password  ===>"))
                 "Password  ===>" 5 0)
    by (apply (first_match_by_find _ _ 5 0 (pad 80 "Password  ===>"));
        [lia | reflexivity | reflexivity | lia | vm_compute; reflexivity]).
  split; [exact Hs|]. split; [exact Hm|].
  exact (find_text_position_column default_config _ "Password  ===>" 2 5 0 Hs Hm).
Defined.

(** C1 as stated fails: with the label starting at column 1 of row 5 the
    claim, counting [i] from 1, asks for column [1 + 14 + 2 = 17]. *)
Lemma scenario_B_not_column_17 :
  first_match (session (screen_with 24 80 5 "Password  ===>")) "Password  ===>" 5 0 /\
  fst (Utils.find_text_position default_config "Password  ===>" 2
         (session (screen_with 24 80 5 "Password  ===>")))
  <> Return (Some (5, 1 + PyStr.len "Password  ===>" + 2)).
Proof.
  split.
  - apply (first_match_by_find _ _ 5 0 (pad 80 "Password  ===>"));
      [lia | reflexivity | reflexivity | lia | vm_compute; reflexivity].
  - vm_compute. discriminate.
Qed.

(** C7.  On a screen that has the label in no row, [find_text_position]
    returns [None] after one full-row read of each of the rows
    [1 .. SCREEN_ROWS], in that order, and nothing else; on a screen that
    has it, the first row from the top with the label and the leftmost
    occurrence in that row give the position, and the rows below are not
    read. *)
Theorem find_text_position_scan (config : TerminalConfig) (em : Emulator)
    (field : string) (offset : Z) :
  shows config em ->
  (absent_everywhere em field ->
   Utils.find_text_position config field offset em
   = (Return None, logged (row_reads config 1 (SCREEN_ROWS config)) em) /\
   List.length (row_reads config 1 (SCREEN_ROWS config))
   = Z.to_nat (SCREEN_ROWS config)) /\
  (forall row idx, first_match em field row idx ->
   Utils.find_text_position config field offset em
   = (Return (Some (row, Utils.position_col idx field offset)),
      logged (row_reads config 1 row) em)).
Proof.
  intros Hs. split.
  - intros Habs. split.
    + unfold Utils.find_text_position.
      rewrite <- (app_nil_r (PyStr.range 1 (SCREEN_ROWS config + 1))).
      rewrite position_rows_pass; [reflexivity | apply Hs | now apply passes_all].
    + unfold row_reads, PyStr.range. rewrite length_map.
      assert (forall n lo, List.length (PyStr.range_from lo n) = n) as Hlen
        by (induction n; intros; simpl; [reflexivity | now rewrite IHn]).
      rewrite Hlen. f_equal. lia.
  - intros row idx Hm. now apply find_text_position_found.
Qed.

(** The scan on a blank 24 x 80 screen (24 reads, then [None]) and on the
    screen of scenario B (5 reads, then the position). *)
Lemma find_text_position_scan_witness :
  (shows default_config (session (screen_with 24 80 0 EmptyString)) /\
   absent_everywhere (session (screen_with 24 80 0 EmptyString)) "Username:" /\
   Utils.find_text_position default_config "Username:" 0
     (session (screen_with 24 80 0 EmptyString))
   = (Return None,
      logged (row_reads default_config 1 24)
        (session (screen_with 24 80 0 EmptyString)))) /\
  (shows default_config (session (screen_with 24 80 5 "Password  ===>")) /\
   first_match (session (screen_with 24 80 5 "Password  ===>"))
     "Password  ===>" 5 0 /\
   Utils.find_text_position default_config "Password  ===>" 2
     (session (screen_with 24 80 5 "Password  ===>"))
   = (Return (Some (5, 16)),
      logged (row_reads default_config 1 5)
        (session (screen_with 24 80 5 "Password  ===>")))).
Proof.
  assert (Hs : shows default_config (session (screen_with 24 80 0 EmptyString)))
    by (repeat split; vm_compute; reflexivity).
  assert (Ha : absent_everywhere (session (screen_with 24 80 0 EmptyString)) "Username:")
    by (apply absent_everywhere_by_find; vm_compute; reflexivity).
  assert (Hs' : shows default_config (session (screen_with 24 80 5 "Password  ===>")))
    by (repeat split; vm_compute; reflexivity).
  assert (Hm : first_match (session (screen_with 24 80 5 "Password  ===>"))
                 "Password  ===>" 5 0)
    by (apply (first_match_by_find _ _ 5 0 (pad 80 "Password  ===>"));
        [lia | reflexivity | reflexivity | lia | vm_compute; reflexivity]).
  split.
  - split; [exact Hs|]. split; [exact Ha|].
    exact (proj1 (proj1 (find_text_position_scan default_config _ "Username:" 0 Hs) Ha)).
  - split; [exact Hs'|]. split; [exact Hm|].
    exact (proj2 (find_text_position_scan default_config _ "Password  ===>" 2 Hs') 5 0 Hm).
Defined.

(** ** The paced write path: [Utils.send_text] *)

Lemma send_string_alive (text : string) (em : Emulator) :
  budget em = None ->
  exists em',
    Device.send_string text em = (Return tt, em') /\
    budget em' = None /\
    journal em' = (journal em ++ [SendString text])%list.
Proof.
  intros Hb. unfold Device.send_string, bind. rewrite (call_alive _ _ Hb).
  destruct (Device.type_text text (cursor (Device.log (SendString text) em))
              (screen (Device.log (SendString text) em))) as [cur scr].
  eexists. split; [reflexivity|]. split; [exact Hb | reflexivity].
Qed.

Lemma send_text_chars_alive (delay : Q) :
  forall todo em,
    budget em = None ->
    exists em',
      Utils.send_text_chars todo delay em = (Return tt, em') /\
      budget em' = None /\
      journal em' = (journal em ++ typing_events todo delay)%list.
Proof.
  induction todo as [|char rest IH]; intros em Hb; simpl.
  - exists em. split; [reflexivity|]. split; [exact Hb | now rewrite app_nil_r].
  - destruct (send_string_alive char em Hb) as (em1 & E1 & Hb1 & J1).
    unfold bind at 1. rewrite E1.
    unfold bind at 1. unfold sleep at 1.
    destruct (IH (Device.log (Sleep delay) em1) Hb1) as (em2 & E2 & Hb2 & J2).
    rewrite E2. exists em2. split; [reflexivity|]. split; [exact Hb2|].
    rewrite J2. simpl. rewrite J1, <- !app_assoc. reflexivity.
Qed.

Lemma send_text_alive (config : TerminalConfig) (value : string) (em : Emulator) :
  budget em = None ->
  exists em',
    Utils.send_text config value em = (Return tt, em') /\
    journal em'
    = (journal em ++ typing_events (PyStr.chars value) (CHAR_DELAY config)
         ++ [WaitForField])%list.
Proof.
  intros Hb. unfold Utils.send_text, bind.
  destruct (send_text_chars_alive (CHAR_DELAY config) (PyStr.chars value) em Hb)
    as (em1 & E1 & Hb1 & J1).
  rewrite E1. unfold Device.wait_for_field. rewrite (call_alive _ _ Hb1).
  eexists. split; [reflexivity|]. simpl. rewrite J1, <- app_assoc. reflexivity.
Qed.

Lemma typing_events_no_wait (delay : Q) (todo : list string) :
  ~ In WaitForField (typing_events todo delay).
Proof.
  induction todo as [|char rest IH]; simpl; [tauto|].
  intros [H | [H | H]]; [discriminate | discriminate | exact (IH H)].
Qed.

(** C8.  On a session that answers, [input_string] (through
    [Utils.send_text]) returns after sending the characters of [value]
    one at a time and in order, each send followed by a pause of
    [CHAR_DELAY] before the next, and after the last pause one
    [wait_for_field]; there is no other wait among the sends. *)
Theorem input_string_paced (config : TerminalConfig) (value : string)
    (em : Emulator) :
  budget em = None ->
  exists em',
    BasePage.input_string config value em = (Return tt, em') /\
    journal em'
    = (journal em ++ typing_events (PyStr.chars value) (CHAR_DELAY config)
         ++ [WaitForField])%list /\
    ~ In WaitForField (typing_events (PyStr.chars value) (CHAR_DELAY config)).
Proof.
  intros Hb. destruct (send_text_alive config value em Hb) as (em' & E & J).
  exists em'. split; [|split; [exact J | apply typing_events_no_wait]].
  unfold BasePage.input_string, try_except. rewrite E. reflexivity.
Qed.

(** Typing "abc" on a blank screen. *)
Lemma input_string_paced_witness :
  budget (session (screen_with 24 80 0 EmptyString)) = None /\
  exists em',
    BasePage.input_string default_config "abc"
      (session (screen_with 24 80 0 EmptyString)) = (Return tt, em') /\
    journal em'
    = [SendString "a"; Sleep 0.05; SendString "b"; Sleep 0.05;
       SendString "c"; Sleep 0.05; WaitForField].
Proof.
  split; [reflexivity|].
  destruct (input_string_paced default_config "abc"
              (session (screen_with 24 80 0 EmptyString)) eq_refl)
    as (em' & E & J & _).
  exists em'. split; [exact E | exact J].
Defined.

(** ** Key dispatch: [Utils.send_key] *)

(** Every member of [Key] has an entry in the dictionary display. *)
Lemma key_methods_total (k : Key) :
  exists e, In (k, e) Utils.key_methods_display.
Proof. destruct k; eexists; simpl; tauto. Qed.

(** C2 (the code departs from it).  Building the dictionary of
    [send_key] already issues 27 commands to the emulator, before any
    entry is looked up: all values written as calls are called on the
    spot.  The dictionary that results does have an entry for every
    member of [Key]; for a key such as [TAB] the entry is what the call
    returned, and calling it sends nothing and raises [TypeError]. *)
Theorem key_methods_built_by_calling (scr : list string) :
  (exists d,
     Utils.build_dict Utils.key_methods_display (session scr)
     = (Return d, logged dictionary_commands (session scr)) /\
     List.length dictionary_commands = 27%nat /\
     forall k, exists v, Utils.lookup (Member k) d = Some v) /\
  Utils.send_key (Member TAB) false (session scr)
  = (Raise (PyExc TypeError "'Command' object is not callable"),
     logged dictionary_commands (session scr)).
Proof.
  split; [|reflexivity].
  eexists. split; [reflexivity|]. split; [reflexivity|].
  intros k. destruct k; eexists; reflexivity.
Qed.

(** C3 (the code departs from it).  A key that is no member of [Key]
    does make [send_key] raise, a [ValueError], but only after the 27
    commands of the dictionary have gone to the emulator. *)
Theorem send_key_foreign_key (scr : list string) (text : string) (wait : bool) :
  Utils.send_key (Foreign text) wait (session scr)
  = (Raise (PyExc ValueError ("Tecla " ++ text ++ " não suportada")),
     logged dictionary_commands (session scr)).
Proof. reflexivity. Qed.

(** C4 (the code departs from it).  [send_key(em, Key.ENTER, True)] ends
    with the Enter command, the pause of one second and the wait for the
    field, in this order, but the 27 commands of the dictionary go to the
    emulator before them. *)
Theorem send_key_enter_wait (scr : list string) :
  Utils.send_key (Member ENTER) true (session scr)
  = (Return tt,
     logged (dictionary_commands ++ [Exec "Enter"; Sleep 1; WaitForField])
       (session scr)).
Proof. reflexivity. Qed.

(** ** The screen capture: [Utils.get_screen] *)

Lemma get_screen_rows_read (cols : Z) :
  forall todo acc em,
    budget em = None -> readable em cols todo ->
    Utils.get_screen_rows todo cols acc em
    = (Return (acc ++ map (fun row => nth (Z.to_nat (row - 1)) (screen em) EmptyString) todo)%list,
       logged (map (fun row => StringGet row 1 cols) todo) em).
Proof.
  induction todo as [|row todo IH]; intros acc em Hb Hr; simpl.
  - now rewrite app_nil_r, logged_nil.
  - destruct (Hr row (or_introl eq_refl)) as (Hrow & line & Hline & Hlen).
    unfold bind. rewrite (string_get_row _ _ _ _ Hb Hrow Hline Hlen).
    rewrite IH; [| exact Hb | intros r Hin; apply Hr; now right].
    rewrite log_logged, <- app_assoc. simpl.
    unfold row_text in Hline. rewrite (nth_error_nth _ _ _ Hline). reflexivity.
Qed.

Lemma rows_in_order (l : list string) :
  forall pre,
    map (fun row => nth (Z.to_nat (row - 1)) (pre ++ l)%list EmptyString)
        (PyStr.range_from (Z.of_nat (List.length pre) + 1) (List.length l))
    = l.
Proof.
  induction l as [|x l IH]; intros pre; simpl; [reflexivity|].
  f_equal.
  - replace (Z.to_nat (Z.of_nat (List.length pre) + 1 - 1)) with (List.length pre) by lia.
    apply nth_middle.
  - specialize (IH (pre ++ [x])%list). rewrite <- app_assoc in IH. simpl in IH.
    rewrite length_app in IH. simpl in IH.
    replace (Z.of_nat (List.length pre) + 1 + 1)
      with (Z.of_nat (List.length pre + 1) + 1) by lia.
    exact IH.
Qed.

Lemma readable_all (config : TerminalConfig) (em : Emulator) :
  shows config em ->
  readable em (SCREEN_COLS config) (PyStr.range 1 (SCREEN_ROWS config + 1)).
Proof.
  intros Hs r Hr. apply in_range in Hr. split; [lia|].
  apply (shows_row config em r Hs). lia.
Qed.

(** On a screen as configured the capture is the screen, row by row. *)
Lemma get_screen_shows (config : TerminalConfig) (em : Emulator) :
  shows config em ->
  Utils.get_screen config em
  = (Return (screen em), logged (row_reads config 1 (SCREEN_ROWS config)) em).
Proof.
  intros Hs. unfold Utils.get_screen.
  rewrite get_screen_rows_read; [| apply Hs | now apply readable_all].
  simpl. unfold row_reads. f_equal. f_equal.
  destruct Hs as (_ & Hrows & _). unfold PyStr.range.
  replace (Z.to_nat (SCREEN_ROWS config + 1 - 1)) with (List.length (screen em)) by lia.
  apply (rows_in_order (screen em) []).
Qed.

(** ** Writing to a field: [BasePage.input_text] *)

Lemma send_rows_absent (config : TerminalConfig) (em : Emulator)
    (field value : string) (offset : Z) :
  shows config em -> absent_everywhere em field ->
  Utils.find_and_send_text config field value offset em
  = (Return false, logged (row_reads config 1 (SCREEN_ROWS config)) em).
Proof.
  intros Hs Habs. unfold Utils.find_and_send_text.
  rewrite <- (app_nil_r (PyStr.range 1 (SCREEN_ROWS config + 1))).
  rewrite send_rows_pass; [reflexivity | apply Hs | now apply passes_all].
Qed.

Lemma join_not_empty (sep a b : string) (rest : list string) :
  sep <> EmptyString -> PyStr.join sep (a :: b :: rest) <> EmptyString.
Proof.
  intros Hsep. change (PyStr.join sep (a :: b :: rest))
    with (a ++ sep ++ PyStr.join sep (b :: rest))%string.
  destruct a; simpl; [|discriminate].
  destruct sep; [congruence | discriminate].
Qed.

Lemma TerminalError_init_fails (kind : terminal_kind) (message content : string)
    (em : Emulator) :
  content <> EmptyString ->
  Errors.TerminalError_init kind message (Some content) em
  = (Raise (Failed (with_screen message content)), em).
Proof.
  intros H. unfold Errors.TerminalError_init.
  destruct content; [congruence | reflexivity].
Qed.

(** With the label in no row of a screen of two rows or more,
    [input_text] reads the rows twice, once to look for the label and
    once for the snapshot, and leaves through [pytest.fail]. *)
Lemma input_text_label_absent (config : TerminalConfig) (em : Emulator)
    (field value : string) (offset : Z) :
  shows config em -> 2 <= SCREEN_ROWS config -> absent_everywhere em field ->
  BasePage.input_text config field value offset em
  = (Raise (Failed (with_screen
                      ("Campo " ++ PyStr.dquote ++ field ++ PyStr.dquote
                         ++ " não encontrado na tela")
                      (PyStr.join PyStr.newline (screen em)))),
     logged (row_reads config 1 (SCREEN_ROWS config)
               ++ row_reads config 1 (SCREEN_ROWS config)) em).
Proof.
  intros Hs Hrows Habs.
  unfold BasePage.input_text, BasePage.input_text_except, try_except, bind.
  rewrite (send_rows_absent config em field value offset Hs Habs).
  cbn [negb]. unfold BasePage.raise_new, Errors.new_FieldNotFoundError, bind.
  unfold Errors.capture, bind.
  rewrite (get_screen_shows config _ (shows_logged config _ em Hs)).
  cbn [screen logged]. unfold ret at 1. cbv iota beta.
  rewrite TerminalError_init_fails.
  - cbn [is_Exception]. now rewrite logged_logged.
  - destruct Hs as (_ & Hlen & _).
    destruct (screen em) as [|a [|b rest]]; simpl in Hlen; try lia.
    apply join_not_empty. discriminate.
Qed.

(** C6 (the code departs from it).  Scenario D: on a blank 24 x 80
    screen [input_text("Username:", ...)] does not raise
    [FieldNotFoundError]; the constructor of the exception ends in
    [pytest.fail], whose outcome leaves the call, carrying the message of
    the error and the 24 rows joined by line breaks.  A [TerminalError]
    that did get raised inside the [try] would not leave the call either:
    the [except] clause lets it go and the method returns [None]. *)
Theorem input_text_scenario_D :
  fst (BasePage.input_text default_config "Username:" "ibmuser" 0
         (session (screen_with 24 80 0 EmptyString)))
  = Raise (Failed (with_screen
                     ("Campo " ++ PyStr.dquote ++ "Username:" ++ PyStr.dquote
                        ++ " não encontrado na tela")
                     (PyStr.join PyStr.newline (screen_with 24 80 0 EmptyString))))
  /\ List.length (screen_with 24 80 0 EmptyString) = 24%nat
  /\ forall msg content em,
       try_except (raise (TerminalError FieldNotFoundError msg content))
         (BasePage.input_text_except default_config "Username:" "ibmuser") em
       = (Return None, em).
Proof.
  split; [|split; reflexivity].
  rewrite input_text_label_absent.
  - reflexivity.
  - repeat split; vm_compute; reflexivity.
  - simpl. lia.
  - apply absent_everywhere_by_find. vm_compute. reflexivity.
Qed.

(** ** Errors whose screen capture fails *)

(** C9 (the code departs from it).  Only [ScreenError] guards its
    capture.  On a session that no longer answers, [input_text] and
    [get_value] end with the emulator's exception from the capture inside
    [InputError] / [FieldNotFoundError]; the same happens when the
    session stops answering right after a scan that did not find the
    label.  [get_screen], through [ScreenError], puts the note in place
    of the screen instead. *)
Theorem capture_failure_replaces_error :
  fst (BasePage.input_text default_config "Field:" "ABCDE" 0
         (dead_session (screen_with 24 80 3 "Field:")))
  = Raise (PyExc CommandError "emulator is not answering")
  /\
  fst (BasePage.get_value default_config "Field:" 0 5
         (dead_session (screen_with 24 80 3 "Field:")))
  = Raise (PyExc CommandError "emulator is not answering")
  /\
  fst (BasePage.input_text default_config "Username:" "ibmuser" 0
         (fading_session 24 (screen_with 24 80 0 EmptyString)))
  = Raise (PyExc CommandError "emulator is not answering")
  /\
  fst (BasePage.get_screen default_config
         (dead_session (screen_with 24 80 3 "Field:")))
  = Raise (Failed (with_screen
                     "Erro ao capturar tela: emulator is not answering"
                     "Não foi possível capturar o conteúdo da tela: emulator is not answering")).
Proof. repeat split; vm_compute; reflexivity. Qed.

(** ** Typing on the screen *)

Lemma set_char_length (c : ascii) (line : string) :
  forall n, String.length (Device.set_char n c line) = String.length line.
Proof.
  induction line as [|b line IH]; intros n; destruct n; simpl;
    try reflexivity.
  now rewrite IH.
Qed.

Lemma substring_set_char_before (c : ascii) (line : string) :
  forall n j k, (j + k <= n)%nat ->
    substring j k (Device.set_char n c line) = substring j k line.
Proof.
  induction line as [|b line IH]; intros n j k H; [destruct n; reflexivity|].
  destruct n as [|n].
  - assert (j = 0 /\ k = 0)%nat as [-> ->] by lia. reflexivity.
  - destruct j as [|j]; simpl.
    + destruct k as [|k]; [reflexivity|]. f_equal. apply IH. lia.
    + apply IH. lia.
Qed.

Lemma substring_set_char_at (c : ascii) (line : string) :
  forall n, (n < String.length line)%nat ->
    substring n 1 (Device.set_char n c line) = String c EmptyString.
Proof.
  induction line as [|b line IH]; intros n H; simpl in H; [lia|].
  destruct n as [|n]; simpl.
  - destruct line; reflexivity.
  - apply IH. lia.
Qed.

Lemma overwrite_length (text : string) :
  forall c line, String.length (overwrite c text line) = String.length line.
Proof.
  induction text as [|ch text IH]; intros c line; simpl; [reflexivity|].
  now rewrite IH, set_char_length.
Qed.

Lemma substring_overwrite_before (text : string) :
  forall c line j k, (j + k <= c)%nat ->
    substring j k (overwrite c text line) = substring j k line.
Proof.
  induction text as [|ch text IH]; intros c line j k H; simpl; [reflexivity|].
  rewrite IH by lia. apply substring_set_char_before, H.
Qed.

(** What was typed stands where it was typed. *)
Lemma substring_overwrite_at (text : string) :
  forall c line, (c + String.length text <= String.length line)%nat ->
    substring c (String.length text) (overwrite c text line) = text.
Proof.
  induction text as [|ch text IH]; intros c line H; simpl String.length in *.
  - apply substring_none.
  - change (S (String.length text)) with (1 + String.length text)%nat.
    rewrite substring_plus. simpl overwrite.
    rewrite substring_overwrite_before by lia.
    rewrite substring_set_char_at by lia.
    replace (c + 1)%nat with (S c) by lia.
    rewrite IH by (rewrite set_char_length; lia).
    reflexivity.
Qed.

Lemma set_row_length (f : string -> string) (scr : list string) :
  forall r, List.length (Device.set_row r f scr) = List.length scr.
Proof.
  induction scr as [|l scr IH]; intros r; simpl; [reflexivity|].
  destruct r; simpl; [reflexivity | now rewrite IH].
Qed.

Lemma nth_error_set_row_eq (f : string -> string) (scr : list string) :
  forall r line, nth_error scr r = Some line ->
    nth_error (Device.set_row r f scr) r = Some (f line).
Proof.
  induction scr as [|l scr IH]; intros r line H; destruct r; simpl in *;
    try discriminate.
  - now inversion H.
  - now apply IH.
Qed.

Lemma nth_error_set_row_ne (f : string -> string) (scr : list string) :
  forall r r', r' <> r ->
    nth_error (Device.set_row r f scr) r' = nth_error scr r'.
Proof.
  induction scr as [|l scr IH]; intros r r' H; simpl; [reflexivity|].
  destruct r, r'; simpl; try reflexivity; try congruence.
  apply IH. congruence.
Qed.

Lemma set_row_set_row (f g : string -> string) (scr : list string) :
  forall r, Device.set_row r g (Device.set_row r f scr)
            = Device.set_row r (fun l => g (f l)) scr.
Proof.
  induction scr as [|l scr IH]; intros r; simpl; [reflexivity|].
  destruct r; simpl; [reflexivity | now rewrite IH].
Qed.

Lemma set_row_ext (f g : string -> string) (scr : list string) :
  forall r line, nth_error scr r = Some line -> f line = g line ->
    Device.set_row r f scr = Device.set_row r g scr.
Proof.
  induction scr as [|l scr IH]; intros r line H E; destruct r; simpl in *;
    try discriminate.
  - inversion H; subst. now rewrite E.
  - f_equal. eapply IH; eauto.
Qed.

Lemma set_row_same (f : string -> string) (scr : list string) :
  forall r line, nth_error scr r = Some line -> f line = line ->
    Device.set_row r f scr = scr.
Proof.
  induction scr as [|l scr IH]; intros r line H E; destruct r; simpl in *;
    try discriminate.
  - inversion H; subst. now rewrite E.
  - f_equal. eapply IH; eauto.
Qed.

Lemma forallb_set_row (p : string -> bool) (f : string -> string)
    (scr : list string) :
  (forall l, p l = true -> p (f l) = true) ->
  forall r, forallb p scr = true -> forallb p (Device.set_row r f scr) = true.
Proof.
  intros Hf. induction scr as [|l scr IH]; intros r H; simpl in *; [reflexivity|].
  apply andb_true_iff in H as [Hl Hrest].
  destruct r; simpl; apply andb_true_iff; split; auto.
Qed.

(** Text that fits on the cursor row is written over that row in place. *)
Lemma type_text_fits (text : string) :
  forall c scr r line,
    nth_error scr r = Some line ->
    (c + String.length text <= String.length line)%nat ->
    snd (Device.type_text text (r, c) scr)
    = Device.set_row r (overwrite c text) scr.
Proof.
  induction text as [|ch text IH]; intros c scr r line Hline Hfit.
  - simpl. symmetry. now apply (set_row_same _ _ _ line).
  - change (Device.type_text (String ch text) (r, c) scr)
      with (Device.type_text text (Device.advance scr (r, c))
              (Device.set_row r (Device.set_char c ch) scr)).
    destruct text as [|ch' text'].
    + reflexivity.
    + assert (Hadv : Device.advance scr (r, c) = (r, S c)).
      { unfold Device.advance, Device.width. rewrite Hline.
        replace (S c <? String.length line)%nat with true; [reflexivity|].
        symmetry. apply Nat.ltb_lt. simpl in Hfit. lia. }
      rewrite Hadv.
      rewrite (IH (S c) _ r (Device.set_char c ch line)).
      * now rewrite set_row_set_row.
      * now apply nth_error_set_row_eq.
      * rewrite set_char_length. simpl in Hfit |- *. lia.
Qed.

(** ** The write path: [Utils.find_and_send_text] *)

Lemma send_rows_hit (cols : Z) (field value : string) (offset : Z)
    (row : Z) (rest : list Z) (em : Emulator) (line : string) (idx : Z) :
  budget em = None -> 1 <= row -> row_text em row = Some line ->
  PyStr.len line = cols -> PyStr.find line field = idx -> idx <> -1 ->
  Utils.find_and_send_text_rows (row :: rest) cols field value offset em
  = (Device.move_to row (Utils.send_col idx field offset) ;;;
     Device.send_string value ;;; ret true)
      (Device.log (StringGet row 1 cols) em).
Proof.
  intros Hb Hrow Hline Hlen Hfind Hne. simpl.
  unfold bind at 1. rewrite (string_get_row _ _ _ _ Hb Hrow Hline Hlen).
  rewrite Hfind.
  replace (idx =? -1) with false by (symmetry; apply Z.eqb_neq; exact Hne).
  reflexivity.
Qed.

(** The write path on a screen that has the label: the rows down to the
    first match are read, then the cursor is moved and the value sent. *)
Lemma find_and_send_text_found (config : TerminalConfig) (em : Emulator)
    (field value : string) (offset row idx : Z) :
  shows config em -> first_match em field row idx ->
  Utils.find_and_send_text config field value offset em
  = (Device.move_to row (Utils.send_col idx field offset) ;;;
     Device.send_string value ;;; ret true)
      (logged (row_reads config 1 row) em).
Proof.
  intros Hs Hm.
  pose proof (passes_above config em field row idx Hs Hm) as Hp.
  destruct Hm as (Hrow & Hidx & line & Hline & Hleft & Habove).
  assert (Hle : row <= SCREEN_ROWS config) by (eapply row_text_bound; eauto).
  destruct (shows_row config em row Hs) as (l & Hl & Hlen); [lia|].
  assert (l = line) by congruence. subst l.
  unfold Utils.find_and_send_text.
  rewrite (range_split (SCREEN_ROWS config) row) by lia.
  rewrite send_rows_pass by (try exact Hp; apply Hs).
  rewrite (send_rows_hit _ _ _ _ _ _ _ line idx);
    try assumption; try (apply Hs); try lia.
  - rewrite log_after_logged, (row_reads_snoc config row Hrow). reflexivity.
  - rewrite (find_of_leftmost _ _ _ Hleft). lia.
Qed.

(** Whether the move succeeds or not, it is the one move asked for. *)
Lemma move_send_journal (row col : Z) (value : string) (em : Emulator) :
  budget em = None ->
  exists tail,
    journal (snd ((Device.move_to row col ;;; Device.send_string value ;;; ret true) em))
    = (journal em ++ MoveTo row col :: tail)%list /\
    (tail = [] \/ tail = [SendString value]).
Proof.
  intros Hb. unfold bind at 1. unfold Device.move_to, bind at 1.
  rewrite (call_alive _ _ Hb). cbn [screen Device.log].
  destruct ((1 <=? row) && (row <=? Z.of_nat (List.length (screen em)))
            && (1 <=? col)
            && (col <=? Z.of_nat (Device.width (screen em) (Z.to_nat (row - 1))))).
  - unfold bind.
    destruct (send_string_alive value
                (Device.set_screen (screen em) (Z.to_nat (row - 1), Z.to_nat (col - 1))
                   (Device.log (MoveTo row col) em)) Hb) as (em' & E & _ & J).
    cbn [screen Device.log] in E. rewrite E. simpl.
    exists [SendString value]. split; [|now right].
    rewrite J. simpl. now rewrite <- app_assoc.
  - exists []. split; [reflexivity | now left].
Qed.

(** A move onto the row and a value that fits behind it: the value is
    written over the row from the cursor column on. *)
Lemma move_send_fits (row col : Z) (value line : string) (em : Emulator) :
  budget em = None -> 1 <= row -> row_text em row = Some line ->
  1 <= col <= PyStr.len line -> col + PyStr.len value - 1 <= PyStr.len line ->
  exists em',
    (Device.move_to row col ;;; Device.send_string value ;;; ret true) em
    = (Return true, em') /\
    budget em' = None /\
    screen em' = Device.set_row (Z.to_nat (row - 1))
                   (overwrite (Z.to_nat (col - 1)) value) (screen em).
Proof.
  intros Hb Hrow Hline Hcol Hfit. unfold PyStr.len in *. unfold row_text in Hline.
  assert (Hlt : (Z.to_nat (row - 1) < List.length (screen em))%nat)
    by (apply nth_error_Some; congruence).
  unfold bind at 1. unfold Device.move_to, bind at 1.
  rewrite (call_alive _ _ Hb). cbn [screen Device.log].
  unfold Device.width. rewrite Hline.
  replace ((1 <=? row) && (row <=? Z.of_nat (List.length (screen em)))
           && (1 <=? col) && (col <=? Z.of_nat (String.length line)))
    with true
    by (symmetry; rewrite !andb_true_iff, !Z.leb_le; lia).
  unfold bind at 1. unfold Device.send_string, bind at 1.
  rewrite call_alive by exact Hb.
  cbn [screen cursor Device.log Device.set_screen].
  pose proof (type_text_fits value (Z.to_nat (col - 1)) (screen em)
                (Z.to_nat (row - 1)) line Hline) as Hty.
  destruct (Device.type_text value (Z.to_nat (row - 1), Z.to_nat (col - 1)) (screen em))
    as [cur scr].
  simpl in Hty. rewrite Hty by lia.
  eexists. split; [reflexivity|]. split; [exact Hb | reflexivity].
Qed.

(** ** Write path against read path *)

Lemma columns_agree_iff (idx : Z) (field : string) (offset : Z) :
  Utils.send_col idx field offset = Utils.position_col idx field offset
  <-> 0 <= offset \/ PyStr.len field = 1.
Proof.
  unfold Utils.send_col, Utils.position_col. rewrite Z.geb_leb.
  destruct (0 <=? offset) eqn:E.
  - apply Z.leb_le in E. tauto.
  - apply Z.leb_gt in E. lia.
Qed.

(** C10 (as amended).  On a screen that shows the label, first at
    [(row, idx)], the write path moves the cursor to column
    [idx + len(field) + offset] of that row (its only move), the read
    path returns the column of [find_text_position] for the same row, and
    the two columns are equal exactly when the offset is not negative or
    the label is one character long. *)
Theorem write_and_read_columns (config : TerminalConfig) (em : Emulator)
    (field value : string) (offset row idx : Z) :
  shows config em -> first_match em field row idx ->
  (exists tail,
     journal (snd (Utils.find_and_send_text config field value offset em))
     = (journal em ++ row_reads config 1 row
          ++ MoveTo row (idx + PyStr.len field + offset) :: tail)%list /\
     (tail = [] \/ tail = [SendString value])) /\
  (exists col,
     fst (Utils.find_text_position config field offset em) = Return (Some (row, col)) /\
     (col = idx + PyStr.len field + offset <-> 0 <= offset \/ PyStr.len field = 1)).
Proof.
  intros Hs Hm. split.
  - rewrite (find_and_send_text_found config em field value offset row idx Hs Hm).
    destruct (move_send_journal row (Utils.send_col idx field offset) value
                (logged (row_reads config 1 row) em)) as (tail & J & Ht).
    + apply Hs.
    + exists tail. split; [|exact Ht].
      rewrite J. simpl. now rewrite <- app_assoc.
  - exists (Utils.position_col idx field offset). split.
    + now rewrite (find_text_position_found config em field offset row idx Hs Hm).
    + pose proof (columns_agree_iff idx field offset) as H.
      unfold Utils.send_col in H. split; intros H'.
      * apply H. now symmetry.
      * symmetry. now apply H.
Qed.

(** The label "===>" on row 5, offset [-3]: the write path moves to
    column 1, the read path reports column [-2]. *)
Lemma write_and_read_columns_witness :
  shows default_config (session (screen_with 24 80 5 "===>")) /\
  first_match (session (screen_with 24 80 5 "===>")) "===>" 5 0 /\
  (exists tail,
     journal (snd (Utils.find_and_send_text default_config "===>" "X" (-3)
                     (session (screen_with 24 80 5 "===>"))))
     = (row_reads default_config 1 5 ++ MoveTo 5 1 :: tail)%list) /\
  (exists col,
     fst (Utils.find_text_position default_config "===>" (-3)
            (session (screen_with 24 80 5 "===>"))) = Return (Some (5, col)) /\
     col <> 1).
Proof.
  assert (Hs : shows default_config (session (screen_with 24 80 5 "===>")))
    by (repeat split; vm_compute; reflexivity).
  assert (Hm : first_match (session (screen_with 24 80 5 "===>")) "===>" 5 0)
    by (apply (first_match_by_find _ _ 5 0 (pad 80 "===>"));
        [lia | reflexivity | reflexivity | lia | vm_compute; reflexivity]).
  split; [exact Hs|]. split; [exact Hm|].
  destruct (write_and_read_columns default_config _ "===>" "X" (-3) 5 0 Hs Hm)
    as ((tail & J & _) & (col & E & Hcol)).
  split.
  - exists tail. exact J.
  - exists col. split; [exact E|].
    intros Heq. apply Hcol in Heq. unfold PyStr.len in Heq. simpl in Heq. lia.
Defined.

(** C10 as stated fails: with a label of one character both paths land
    on the same column also for a negative offset, and what
    [input_text] wrote there [get_value] reads back. *)
Lemma one_character_label_same_column :
  first_match (session (screen_with 24 80 5 "===>")) ">" 5 3 /\
  -1 < 0 /\
  fst (Utils.find_text_position default_config ">" (-1)
         (session (screen_with 24 80 5 "===>")))
  = Return (Some (5, 3)) /\
  journal (snd (Utils.find_and_send_text default_config ">" "X" (-1)
                  (session (screen_with 24 80 5 "===>"))))
  = (row_reads default_config 1 5 ++ [MoveTo 5 3; SendString "X"])%list /\
  fst (BasePage.get_value default_config ">" (-1) 1
         (snd (BasePage.input_text default_config ">" "X" (-1)
                 (session (screen_with 24 80 5 "===>")))))
  = Return (Some "X").
Proof.
  split.
  - apply (first_match_by_find _ _ 5 3 (pad 80 "===>"));
      [lia | reflexivity | reflexivity | lia | vm_compute; reflexivity].
  - repeat split; vm_compute; reflexivity.
Qed.

(** ** Round trip: [input_text], then [get_value] *)

Lemma leftmost_overwrite (field line text : string) (i c : nat) :
  (i + String.length field <= c)%nat ->
  leftmost field line i -> leftmost field (overwrite c text line) i.
Proof.
  intros Hc [Hocc Hmin]. unfold leftmost, occurs_at in *. split.
  - rewrite substring_overwrite_before by lia. exact Hocc.
  - intros j Hj. rewrite substring_overwrite_before by lia. now apply Hmin.
Qed.

Lemma shows_typed (config : TerminalConfig) (em em' : Emulator) (r c : nat)
    (text : string) :
  shows config em -> budget em' = None ->
  screen em' = Device.set_row r (overwrite c text) (screen em) ->
  shows config em'.
Proof.
  intros (_ & Hrows & Hcols) Hb Hscr. unfold shows. rewrite Hscr. split; [exact Hb|].
  split.
  - now rewrite set_row_length.
  - apply forallb_set_row; [|exact Hcols].
    intros l Hl. unfold PyStr.len in *. now rewrite overwrite_length.
Qed.

Lemma first_match_typed (em em' : Emulator) (field text : string)
    (row idx : Z) (c : nat) :
  first_match em field row idx ->
  (Z.to_nat idx + String.length field <= c)%nat ->
  screen em' = Device.set_row (Z.to_nat (row - 1)) (overwrite c text) (screen em) ->
  first_match em' field row idx.
Proof.
  intros (Hrow & Hidx & line & Hline & Hleft & Habove) Hc Hscr.
  split; [exact Hrow|]. split; [exact Hidx|].
  exists (overwrite c text line). unfold row_text in *. rewrite Hscr. split.
  - now apply nth_error_set_row_eq.
  - split; [now apply leftmost_overwrite|].
    intros row' line' Hr' Hl'. apply (Habove row' line' Hr').
    rewrite nth_error_set_row_ne in Hl' by lia. exact Hl'.
Qed.

(** C5 (as amended).  On a screen that shows the label, first at
    [(row, idx)], with an offset of at least 1 and a value that lies on
    the row from the cursor column [idx + len(field) + offset] on,
    [input_text] succeeds and [get_value] with the same offset and the
    length of the value then returns the value, stripped. *)
Theorem input_text_then_get_value (config : TerminalConfig) (em : Emulator)
    (field value : string) (offset row idx : Z) :
  shows config em -> first_match em field row idx ->
  1 <= offset ->
  idx + PyStr.len field + offset <= SCREEN_COLS config ->
  idx + PyStr.len field + offset + PyStr.len value - 1 <= SCREEN_COLS config ->
  exists em',
    BasePage.input_text config field value offset em = (Return (Some true), em') /\
    fst (BasePage.get_value config field offset (PyStr.len value) em')
    = Return (Some (PyStr.strip value)).
Proof.
  intros Hs Hm Hoff Hcol Hfit.
  pose proof Hm as (Hrow & Hidx & line & Hline & Hleft & Habove).
  assert (Hle : row <= SCREEN_ROWS config) by (eapply row_text_bound; eauto).
  destruct (shows_row config em row Hs) as (l & Hl & Hlen); [lia|].
  assert (l = line) by congruence. subst l.
  assert (Hlenf : 0 <= PyStr.len field) by (unfold PyStr.len; lia).
  (* the write *)
  destruct (move_send_fits row (Utils.send_col idx field offset) value line
              (logged (row_reads config 1 row) em))
    as (em' & Erun & Hb' & Hscr'); try (unfold Utils.send_col; lia);
    try assumption; try apply Hs.
  cbn [screen logged] in Hscr'.
  exists em'. split.
  - unfold BasePage.input_text, try_except, bind.
    rewrite (find_and_send_text_found config em field value offset row idx Hs Hm).
    rewrite Erun. reflexivity.
  - (* the read *)
    assert (Hc : (Z.to_nat idx + String.length field
                  <= Z.to_nat (Utils.send_col idx field offset - 1))%nat)
      by (unfold Utils.send_col, PyStr.len in *; lia).
    pose proof (shows_typed config em em' _ _ value Hs Hb' Hscr') as Hs'.
    pose proof (first_match_typed em em' field value row idx _ Hm Hc Hscr') as Hm'.
    unfold BasePage.get_value, try_except, bind.
    unfold Utils.get_value_from_field, bind.
    rewrite (find_text_position_found config em' field offset row idx Hs' Hm').
    assert (Hpos : Utils.position_col idx field offset
                   = Utils.send_col idx field offset)
      by (symmetry; apply columns_agree_iff; lia).
    rewrite Hpos.
    unfold Device.string_get, bind.
    rewrite call_alive by apply Hb'.
    cbn [screen Device.log logged]. unfold Device.region.
    rewrite Hscr'.
    unfold row_text in Hline.
    rewrite (nth_error_set_row_eq _ _ _ _ Hline).
    unfold Utils.send_col, PyStr.len in *. rewrite overwrite_length.
    replace ((1 <=? row) && (1 <=? idx + Z.of_nat (String.length field) + offset)
             && (0 <=? Z.of_nat (String.length value))) with true
      by (symmetry; rewrite !andb_true_iff, !Z.leb_le; lia).
    replace (idx + Z.of_nat (String.length field) + offset
             + Z.of_nat (String.length value) - 1 <=? Z.of_nat (String.length line))
      with true by (symmetry; apply Z.leb_le; lia).
    rewrite Nat2Z.id, substring_overwrite_at by lia.
    reflexivity.
Qed.

(** Scenario C run through the theorem: "Field:" at the start of row 3,
    "ABCDE" written with offset 1 and read back. *)
Lemma input_text_then_get_value_witness :
  shows default_config (session (screen_with 24 80 3 "Field:")) /\
  first_match (session (screen_with 24 80 3 "Field:")) "Field:" 3 0 /\
  exists em',
    BasePage.input_text default_config "Field:" "ABCDE" 1
      (session (screen_with 24 80 3 "Field:")) = (Return (Some true), em') /\
    fst (BasePage.get_value default_config "Field:" 1 5 em')
    = Return (Some "ABCDE").
Proof.
  assert (Hs : shows default_config (session (screen_with 24 80 3 "Field:")))
    by (repeat split; vm_compute; reflexivity).
  assert (Hm : first_match (session (screen_with 24 80 3 "Field:")) "Field:" 3 0)
    by (apply (first_match_by_find _ _ 3 0 (pad 80 "Field:"));
        [lia | reflexivity | reflexivity | lia | vm_compute; reflexivity]).
  split; [exact Hs|]. split; [exact Hm|].
  apply (input_text_then_get_value default_config _ "Field:" "ABCDE" 1 3 0 Hs Hm);
    vm_compute; discriminate.
Defined.

(** C5 as stated fails for offset 0: the cursor column
    [idx + len(field)] is that of the last character of the label, the
    value is written over it, and [get_value] no longer finds the label. *)
Lemma offset_zero_overwrites_label :
  first_match (session (screen_with 24 80 3 "Field:")) "Field:" 3 0 /\
  fst (BasePage.input_text default_config "Field:" "ABCDE" 0
         (session (screen_with 24 80 3 "Field:")))
  = Return (Some true) /\
  row_text (snd (BasePage.input_text default_config "Field:" "ABCDE" 0
                   (session (screen_with 24 80 3 "Field:")))) 3
  = Some (pad 80 "FieldABCDE") /\
  fst (BasePage.get_value default_config "Field:" 0 (PyStr.len "ABCDE")
         (snd (BasePage.input_text default_config "Field:" "ABCDE" 0
                 (session (screen_with 24 80 3 "Field:")))))
  <> Return (Some (PyStr.strip "ABCDE")).
Proof.
  split.
  - apply (first_match_by_find _ _ 3 0 (pad 80 "Field:"));
      [lia | reflexivity | reflexivity | lia | vm_compute; reflexivity].
  - split; [vm_compute; reflexivity|]. split; [vm_compute; reflexivity|].
    vm_compute. discriminate.
Qed.

(** * Further properties of the module *)

(** ** Reading leaves the screen alone *)

Lemma after_reads_refl (em : Emulator) : after_reads em em.
Proof.
  split; [reflexivity|]. split; [reflexivity|].
  exists []. split; [now rewrite app_nil_r | constructor].
Qed.

Lemma after_reads_trans (em1 em2 em3 : Emulator) :
  after_reads em1 em2 -> after_reads em2 em3 -> after_reads em1 em3.
Proof.
  intros (S1 & C1 & evs1 & J1 & F1) (S2 & C2 & evs2 & J2 & F2).
  split; [congruence|]. split; [congruence|].
  exists (evs1 ++ evs2)%list. split.
  - now rewrite J2, J1, app_assoc.
  - apply Forall_app. now split.
Qed.

Lemma string_get_reads (row col length : Z) (em : Emulator) :
  after_reads em (snd (Device.string_get row col length em)).
Proof.
  assert (H : after_reads em (Device.log (StringGet row col length) em)).
  { split; [reflexivity|]. split; [reflexivity|].
    exists [StringGet row col length]. split; [reflexivity|].
    repeat constructor. }
  unfold Device.string_get, bind, Device.call.
  destruct (budget em) as [[|n]|]; cbn [snd fst].
  - exact H.
  - destruct (Device.region _ row col length); exact H.
  - destruct (Device.region _ row col length); exact H.
Qed.

Lemma position_rows_reads (cols : Z) (field : string) (offset : Z) :
  forall todo em,
    after_reads em (snd (Utils.find_text_position_rows todo cols field offset em)).
Proof.
  induction todo as [|row todo IH]; intros em; simpl.
  - apply after_reads_refl.
  - pose proof (string_get_reads row 1 cols em) as H.
    unfold bind. destruct (Device.string_get row 1 cols em) as [[line|e] em1].
    + simpl in H. destruct (negb (PyStr.find line field =? -1)).
      * exact H.
      * eapply after_reads_trans; [exact H | apply IH].
    + exact H.
Qed.

Lemma get_screen_rows_reads (cols : Z) :
  forall todo acc em,
    after_reads em (snd (Utils.get_screen_rows todo cols acc em)).
Proof.
  induction todo as [|row todo IH]; intros acc em; simpl.
  - apply after_reads_refl.
  - pose proof (string_get_reads row 1 cols em) as H.
    unfold bind. destruct (Device.string_get row 1 cols em) as [[line|e] em1].
    + eapply after_reads_trans; [exact H | apply IH].
    + exact H.
Qed.

(** X1.  Whatever the session shows and whether or not it still
    answers, [find_text_position], [get_screen] and
    [get_value_from_field] leave the screen and the cursor as they were
    and add nothing but reads to the journal. *)
Theorem read_path_leaves_screen (config : TerminalConfig) (field : string)
    (offset length : Z) (em : Emulator) :
  after_reads em (snd (Utils.find_text_position config field offset em)) /\
  after_reads em (snd (Utils.get_screen config em)) /\
  after_reads em (snd (Utils.get_value_from_field config field offset length em)).
Proof.
  split; [apply position_rows_reads|]. split; [apply get_screen_rows_reads|].
  unfold Utils.get_value_from_field, bind.
  pose proof (position_rows_reads (SCREEN_COLS config) field offset
                (PyStr.range 1 (SCREEN_ROWS config + 1)) em) as H.
  fold (Utils.find_text_position config field offset em) in H.
  destruct (Utils.find_text_position config field offset em) as [[[[row col]|]|e] em1];
    try exact H.
  pose proof (string_get_reads row col length em1) as H'.
  destruct (Device.string_get row col length em1) as [[value|e] em2];
    eapply after_reads_trans; eauto.
Qed.

(** ** The write path, label absent or present *)

Lemma move_send_not_false (row col : Z) (value : string) (em : Emulator) :
  fst ((Device.move_to row col ;;; Device.send_string value ;;; ret true) em)
  <> Return false.
Proof.
  unfold bind.
  destruct (Device.move_to row col em) as [[u|e] em1]; [|discriminate].
  destruct (Device.send_string value em1) as [[u'|e] em2]; discriminate.
Qed.

(** X2.  On a screen as configured, [find_and_send_text] returns [False]
    when the label stands in no row, after reading every row once and
    without moving the cursor or typing; when the label is there it
    never returns [False], and it asks for the cursor move to
    [idx + len(field) + offset] in the first row that has the label. *)
Theorem find_and_send_text_false_when_absent (config : TerminalConfig)
    (em : Emulator) (field value : string) (offset : Z) :
  shows config em ->
  (absent_everywhere em field ->
   Utils.find_and_send_text config field value offset em
   = (Return false, logged (row_reads config 1 (SCREEN_ROWS config)) em)) /\
  (forall row idx, first_match em field row idx ->
   fst (Utils.find_and_send_text config field value offset em) <> Return false /\
   In (MoveTo row (idx + PyStr.len field + offset))
      (journal (snd (Utils.find_and_send_text config field value offset em)))).
Proof.
  intros Hs. split.
  - now apply send_rows_absent.
  - intros row idx Hm.
    rewrite (find_and_send_text_found config em field value offset row idx Hs Hm).
    split; [apply move_send_not_false|].
    destruct (move_send_journal row (Utils.send_col idx field offset) value
                (logged (row_reads config 1 row) em)) as (tail & J & _);
      [apply Hs|].
    rewrite J. apply in_or_app. right. now left.
Qed.

(** Both cases on 24 x 80 screens: a blank one, and one with "Field:" at
    the start of row 3. *)
Lemma find_and_send_text_false_when_absent_witness :
  (shows default_config (session (screen_with 24 80 0 EmptyString)) /\
   absent_everywhere (session (screen_with 24 80 0 EmptyString)) "Field:" /\
   Utils.find_and_send_text default_config "Field:" "ABCDE" 1
     (session (screen_with 24 80 0 EmptyString))
   = (Return false,
      logged (row_reads default_config 1 24)
        (session (screen_with 24 80 0 EmptyString)))) /\
  (shows default_config (session (screen_with 24 80 3 "Field:")) /\
   first_match (session (screen_with 24 80 3 "Field:")) "Field:" 3 0 /\
   In (MoveTo 3 7)
      (journal (snd (Utils.find_and_send_text default_config "Field:" "ABCDE" 1
                       (session (screen_with 24 80 3 "Field:")))))).
Proof.
  assert (Hs : shows default_config (session (screen_with 24 80 0 EmptyString)))
    by (repeat split; vm_compute; reflexivity).
  assert (Ha : absent_everywhere (session (screen_with 24 80 0 EmptyString)) "Field:")
    by (apply absent_everywhere_by_find; vm_compute; reflexivity).
  assert (Hs' : shows default_config (session (screen_with 24 80 3 "Field:")))
    by (repeat split; vm_compute; reflexivity).
  assert (Hm : first_match (session (screen_with 24 80 3 "Field:")) "Field:" 3 0)
    by (apply (first_match_by_find _ _ 3 0 (pad 80 "Field:"));
        [lia | reflexivity | reflexivity | lia | vm_compute; reflexivity]).
  split.
  - split; [exact Hs|]. split; [exact Ha|].
    exact (proj1 (find_and_send_text_false_when_absent default_config _
                    "Field:" "ABCDE" 1 Hs) Ha).
  - split; [exact Hs'|]. split; [exact Hm|].
    exact (proj2 (proj2 (find_and_send_text_false_when_absent default_config _
                           "Field:" "ABCDE" 1 Hs') 3 0 Hm)).
Defined.

Lemma get_set_char_other (c : ascii) (line : string) :
  forall n j, j <> n -> String.get j (Device.set_char n c line) = String.get j line.
Proof.
  induction line as [|b line IH]; intros n j H; [reflexivity|].
  destruct n as [|n], j as [|j]; simpl; try reflexivity; try congruence.
  apply IH. congruence.
Qed.

Lemma get_overwrite_other (text : string) :
  forall c line j, (j < c \/ c + String.length text <= j)%nat ->
    String.get j (overwrite c text line) = String.get j line.
Proof.
  induction text as [|ch text IH]; intros c line j H; simpl; [reflexivity|].
  simpl in H. rewrite IH by lia. apply get_set_char_other. lia.
Qed.

(** X3.  On a screen as configured that has the label, first at
    [(row, idx)], with the cursor column [idx + len(field) + offset] on
    the row and the value fitting behind it, [find_and_send_text]
    returns [True] and changes the cells of the value and no others:
    every other row is as before, the row keeps its length, the value
    stands from the cursor column on, and the characters before and
    after it are as before. *)
Theorem find_and_send_text_writes_value_only (config : TerminalConfig)
    (em : Emulator) (field value : string) (offset row idx : Z) (line : string) :
  shows config em -> first_match em field row idx ->
  row_text em row = Some line ->
  1 <= idx + PyStr.len field + offset <= SCREEN_COLS config ->
  idx + PyStr.len field + offset + PyStr.len value - 1 <= SCREEN_COLS config ->
  exists em' line',
    Utils.find_and_send_text config field value offset em = (Return true, em') /\
    (forall row', 1 <= row' -> row' <> row -> row_text em' row' = row_text em row') /\
    row_text em' row = Some line' /\
    String.length line' = String.length line /\
    substring (Z.to_nat (idx + PyStr.len field + offset - 1))
              (String.length value) line' = value /\
    forall j,
      (j < Z.to_nat (idx + PyStr.len field + offset - 1) \/
       Z.to_nat (idx + PyStr.len field + offset - 1) + String.length value <= j)%nat ->
      String.get j line' = String.get j line.
Proof.
  intros Hs Hm Hline Hcol Hfit.
  pose proof Hm as (Hrow & Hidx & line0 & Hline0 & _).
  assert (line0 = line) by congruence. subst line0.
  assert (Hle : row <= SCREEN_ROWS config) by (eapply row_text_bound; eauto).
  destruct (shows_row config em row Hs) as (l & Hl & Hlen); [lia|].
  assert (l = line) by congruence. subst l.
  destruct (move_send_fits row (Utils.send_col idx field offset) value line
              (logged (row_reads config 1 row) em))
    as (em' & Erun & Hb' & Hscr'); try (unfold Utils.send_col; lia);
    try assumption; try apply Hs.
  cbn [screen logged] in Hscr'. unfold Utils.send_col in Hscr'.
  exists em', (overwrite (Z.to_nat (idx + PyStr.len field + offset - 1)) value line).
  split.
  - rewrite (find_and_send_text_found config em field value offset row idx Hs Hm).
    exact Erun.
  - unfold row_text in *. rewrite Hscr'. split.
    + intros row' Hr' Hne. apply nth_error_set_row_ne. lia.
    + split; [now apply nth_error_set_row_eq|].
      split; [apply overwrite_length|].
      split.
      * apply substring_overwrite_at. unfold PyStr.len in *. lia.
      * intros j Hj. now apply get_overwrite_other.
Qed.

(** "ABCDE" written behind "Field:" on row 3 of a 24 x 80 screen. *)
Lemma find_and_send_text_writes_value_only_witness :
  shows default_config (session (screen_with 24 80 3 "Field:")) /\
  first_match (session (screen_with 24 80 3 "Field:")) "Field:" 3 0 /\
  exists em' line',
    Utils.find_and_send_text default_config "Field:" "ABCDE" 1
      (session (screen_with 24 80 3 "Field:")) = (Return true, em') /\
    row_text em' 3 = Some line' /\
    substring 6 5 line' = "ABCDE" /\
    substring 0 6 line' = "Field:".
Proof.
  assert (Hs : shows default_config (session (screen_with 24 80 3 "Field:")))
    by (repeat split; vm_compute; reflexivity).
  assert (Hm : first_match (session (screen_with 24 80 3 "Field:")) "Field:" 3 0)
    by (apply (first_match_by_find _ _ 3 0 (pad 80 "Field:"));
        [lia | reflexivity | reflexivity | lia | vm_compute; reflexivity]).
  split; [exact Hs|]. split; [exact Hm|].
  destruct (find_and_send_text_writes_value_only default_config _ "Field:" "ABCDE"
              1 3 0 (pad 80 "Field:") Hs Hm eq_refl)
    as (em' & line' & E & _ & Hrow & _ & Hval & Hrest);
    [vm_compute; split; discriminate | vm_compute; discriminate |].
  exists em', line'. split; [exact E|]. split; [exact Hrow|]. split; [exact Hval|].
  assert (Hg : forall j, (j < 6)%nat -> String.get j line' = String.get j (pad 80 "Field:"))
    by (intros j Hj; apply Hrest; left; vm_compute; lia).
  destruct line' as [|c0 [|c1 [|c2 [|c3 [|c4 [|c5 rest]]]]]];
    try (specialize (Hg 0%nat ltac:(lia)); discriminate);
    try (specialize (Hg 1%nat ltac:(lia)); discriminate);
    try (specialize (Hg 2%nat ltac:(lia)); discriminate);
    try (specialize (Hg 3%nat ltac:(lia)); discriminate);
    try (specialize (Hg 4%nat ltac:(lia)); discriminate);
    try (specialize (Hg 5%nat ltac:(lia)); discriminate).
  pose proof (Hg 0%nat ltac:(lia)) as G0. pose proof (Hg 1%nat ltac:(lia)) as G1.
  pose proof (Hg 2%nat ltac:(lia)) as G2. pose proof (Hg 3%nat ltac:(lia)) as G3.
  pose proof (Hg 4%nat ltac:(lia)) as G4. pose proof (Hg 5%nat ltac:(lia)) as G5.
  simpl in G0, G1, G2, G3, G4, G5.
  inversion G0; inversion G1; inversion G2; inversion G3; inversion G4; inversion G5.
  subst. destruct rest; reflexivity.
Defined.

(** ** Reading a value: [get_value_from_field] and [get_value] *)

Lemma lstrip_blank (s : string) : blank s -> PyStr.lstrip s = EmptyString.
Proof.
  induction s as [|c s IH]; intros H; simpl; [reflexivity|].
  rewrite (H 0%nat c eq_refl). apply IH.
  intros i c' Hi. apply (H (S i) c'). exact Hi.
Qed.

Lemma strip_blank (s : string) : blank s -> PyStr.strip s = EmptyString.
Proof. intros H. unfold PyStr.strip. now rewrite lstrip_blank. Qed.

Lemma rstrip_rstrip (s : string) : PyStr.rstrip (PyStr.rstrip s) = PyStr.rstrip s.
Proof.
  induction s as [|c s IH]; simpl; [reflexivity|].
  destruct (PyStr.rstrip s) as [|c' r] eqn:E.
  - destruct (PyStr.is_space c) eqn:Ec; simpl; [reflexivity|].
    now rewrite Ec.
  - change (PyStr.rstrip (String c (String c' r)))
      with (match PyStr.rstrip (String c' r) with
            | EmptyString =>
                if PyStr.is_space c then EmptyString else String c EmptyString
            | String a q => String c (String a q)
            end).
    now rewrite IH.
Qed.

(** What [lstrip] leaves is empty or begins with a character that is no
    whitespace. *)
Lemma lstrip_head (s : string) :
  PyStr.lstrip s = EmptyString \/
  exists c r, PyStr.lstrip s = String c r /\ PyStr.is_space c = false.
Proof.
  induction s as [|c s IH]; simpl; [now left|].
  destruct (PyStr.is_space c) eqn:E; [exact IH|].
  right. now exists c, s.
Qed.

Lemma rstrip_head (c : ascii) (r : string) :
  PyStr.is_space c = false ->
  exists r', PyStr.rstrip (String c r) = String c r'.
Proof.
  intros H. simpl. destruct (PyStr.rstrip r).
  - rewrite H. now exists EmptyString.
  - eexists. reflexivity.
Qed.

Lemma strip_no_margin (s : string) :
  PyStr.lstrip (PyStr.strip s) = PyStr.strip s /\
  PyStr.rstrip (PyStr.strip s) = PyStr.strip s.
Proof.
  unfold PyStr.strip. split; [|apply rstrip_rstrip].
  destruct (lstrip_head s) as [E | (c & r & E & Hc)]; rewrite E.
  - reflexivity.
  - destruct (rstrip_head c r Hc) as (r' & E'). rewrite E'. simpl. now rewrite Hc.
Qed.

(** X5.  A value that [get_value_from_field] or [get_value] returns has
    no whitespace at its start or at its end: stripping it on either
    side changes nothing. *)
Theorem returned_value_is_stripped (config : TerminalConfig) (field : string)
    (offset length : Z) (em : Emulator) (v : string) :
  fst (Utils.get_value_from_field config field offset length em) = Return (Some v) \/
  fst (BasePage.get_value config field offset length em) = Return (Some v) ->
  PyStr.lstrip v = v /\ PyStr.rstrip v = v.
Proof.
  assert (Hu : fst (Utils.get_value_from_field config field offset length em)
               = Return (Some v) -> PyStr.lstrip v = v /\ PyStr.rstrip v = v).
  { unfold Utils.get_value_from_field, bind.
    destruct (Utils.find_text_position config field offset em)
      as [[[[row col]|]|e] em1]; try discriminate.
    destruct (Device.string_get row col length em1) as [[value|e] em2];
      try discriminate.
    simpl. intros H. inversion H. apply strip_no_margin. }
  intros [H | H]; [now apply Hu|].
  apply Hu. revert H.
  unfold BasePage.get_value, try_except, bind.
  destruct (Utils.get_value_from_field config field offset length em)
    as [[[w|]|e] em1]; simpl.
  - trivial.
  - unfold BasePage.raise_new, Errors.new_FieldNotFoundError, bind.
    destruct (Errors.capture config true em1) as [[sc|e] em2].
    + unfold Errors.TerminalError_init, Errors.pytest_fail, bind, raise.
      destruct sc as [[|a q]|]; simpl; discriminate.
    + destruct (is_Exception e); [|discriminate].
      destruct (negb (is_TerminalError e)); [|discriminate].
      unfold bind.
      destruct (Errors.capture config true em2) as [[sc|e'] em3]; [|discriminate].
      unfold Errors.TerminalError_init, Errors.pytest_fail, bind, raise.
      destruct sc as [[|a q]|]; simpl; discriminate.
  - destruct (is_Exception e); [|discriminate].
    destruct (negb (is_TerminalError e)); [|discriminate].
    unfold BasePage.raise_new, Errors.new_FieldNotFoundError, bind.
    destruct (Errors.capture config true em1) as [[sc|e'] em2]; [|discriminate].
    unfold Errors.TerminalError_init, Errors.pytest_fail, bind, raise.
    destruct sc as [[|a q]|]; simpl; discriminate.
Qed.

(** The value " AB" behind "Field:" comes back as "AB". *)
Lemma returned_value_is_stripped_witness :
  fst (BasePage.get_value default_config "Field:" 1 10
         (session (screen_with 24 80 3 "Field: AB")))
  = Return (Some "AB") /\
  PyStr.lstrip "AB" = "AB" /\ PyStr.rstrip "AB" = "AB".
Proof.
  split; [vm_compute; reflexivity|].
  apply (returned_value_is_stripped default_config "Field:" 1 10
           (session (screen_with 24 80 3 "Field: AB")) "AB").
  right. vm_compute. reflexivity.
Defined.

Lemma string_get_region (em : Emulator) (row col length : Z) (line : string) :
  budget em = None -> 1 <= row -> row_text em row = Some line ->
  1 <= col -> 0 <= length -> col + length - 1 <= PyStr.len line ->
  Device.string_get row col length em
  = (Return (substring (Z.to_nat (col - 1)) (Z.to_nat length) line),
     Device.log (StringGet row col length) em).
Proof.
  intros Hb Hrow Hline Hcol Hlen Hfit. unfold Device.string_get, bind.
  rewrite (call_alive _ _ Hb). unfold Device.region. simpl screen.
  unfold row_text in Hline. rewrite Hline.
  replace ((1 <=? row) && (1 <=? col) && (0 <=? length)) with true
    by (symmetry; rewrite !andb_true_iff, !Z.leb_le; lia).
  replace (col + length - 1 <=? PyStr.len line) with true
    by (symmetry; apply Z.leb_le; lia).
  reflexivity.
Qed.

(** X4.  On a screen as configured that has the label, first at
    [(row, idx)], with the region of [length] cells from the position
    column on lying on the row, [get_value] reads the rows down to [row],
    then that region, and returns its text stripped; a region of nothing
    but whitespace gives the empty string, not a missing field. *)
Theorem get_value_reads_region (config : TerminalConfig) (em : Emulator)
    (field : string) (offset length row idx : Z) (line : string) :
  shows config em -> first_match em field row idx ->
  row_text em row = Some line ->
  1 <= Utils.position_col idx field offset -> 0 <= length ->
  Utils.position_col idx field offset + length - 1 <= SCREEN_COLS config ->
  BasePage.get_value config field offset length em
  = (Return (Some (PyStr.strip
                     (substring (Z.to_nat (Utils.position_col idx field offset - 1))
                        (Z.to_nat length) line))),
     logged (row_reads config 1 row
               ++ [StringGet row (Utils.position_col idx field offset) length]) em)
  /\
  (blank (substring (Z.to_nat (Utils.position_col idx field offset - 1))
            (Z.to_nat length) line) ->
   fst (BasePage.get_value config field offset length em)
   = Return (Some EmptyString)).
Proof.
  intros Hs Hm Hline Hcol Hlen Hfit.
  pose proof Hm as (Hrow & _).
  assert (Hle : row <= SCREEN_ROWS config) by (eapply row_text_bound; eauto).
  destruct (shows_row config em row Hs) as (l & Hl & Hw); [lia|].
  assert (l = line) by congruence. subst l.
  assert (E : BasePage.get_value config field offset length em
              = (Return (Some (PyStr.strip
                     (substring (Z.to_nat (Utils.position_col idx field offset - 1))
                        (Z.to_nat length) line))),
                 logged (row_reads config 1 row
                           ++ [StringGet row (Utils.position_col idx field offset) length])
                   em)).
  { unfold BasePage.get_value, try_except, bind.
    unfold Utils.get_value_from_field, bind.
    rewrite (find_text_position_found config em field offset row idx Hs Hm).
    rewrite (string_get_region _ row _ length line); try assumption;
      try apply Hs; try lia.
    unfold ret. now rewrite log_after_logged. }
  split; [exact E|].
  intros Hb. rewrite E. simpl. now rewrite strip_blank.
Qed.

(** "Field:" on row 3 of a 24 x 80 screen with nothing behind it: the
    ten cells from column 7 on are read and the empty string comes back. *)
Lemma get_value_reads_region_witness :
  shows default_config (session (screen_with 24 80 3 "Field:")) /\
  first_match (session (screen_with 24 80 3 "Field:")) "Field:" 3 0 /\
  BasePage.get_value default_config "Field:" 1 10
    (session (screen_with 24 80 3 "Field:"))
  = (Return (Some EmptyString),
     logged (row_reads default_config 1 3 ++ [StringGet 3 7 10])
       (session (screen_with 24 80 3 "Field:"))).
Proof.
  assert (Hs : shows default_config (session (screen_with 24 80 3 "Field:")))
    by (repeat split; vm_compute; reflexivity).
  assert (Hm : first_match (session (screen_with 24 80 3 "Field:")) "Field:" 3 0)
    by (apply (first_match_by_find _ _ 3 0 (pad 80 "Field:"));
        [lia | reflexivity | reflexivity | lia | vm_compute; reflexivity]).
  split; [exact Hs|]. split; [exact Hm|].
  refine (proj1 (get_value_reads_region default_config _ "Field:" 1 10 3 0
                   (pad 80 "Field:") Hs Hm eq_refl _ _ _));
    vm_compute; discriminate.
Defined.

Lemma position_absent (config : TerminalConfig) (em : Emulator)
    (field : string) (offset : Z) :
  shows config em -> absent_everywhere em field ->
  Utils.find_text_position config field offset em
  = (Return None, logged (row_reads config 1 (SCREEN_ROWS config)) em).
Proof.
  intros Hs Habs. unfold Utils.find_text_position.
  rewrite <- (app_nil_r (PyStr.range 1 (SCREEN_ROWS config + 1))).
  rewrite position_rows_pass; [reflexivity | apply Hs | now apply passes_all].
Qed.

(** X6.  On a screen as configured, of two rows or more, that has the
    label in no row, [get_value] does not return [None]: it reads the
    rows twice, once to look for the label and once for the snapshot,
    and leaves through [pytest.fail] with the message of
    [FieldNotFoundError] and the rows joined by line breaks. *)
Theorem get_value_label_absent (config : TerminalConfig) (em : Emulator)
    (field : string) (offset length : Z) :
  shows config em -> 2 <= SCREEN_ROWS config -> absent_everywhere em field ->
  BasePage.get_value config field offset length em
  = (Raise (Failed (with_screen
                      ("Campo " ++ PyStr.dquote ++ field ++ PyStr.dquote
                         ++ " não encontrado na tela")
                      (PyStr.join PyStr.newline (screen em)))),
     logged (row_reads config 1 (SCREEN_ROWS config)
               ++ row_reads config 1 (SCREEN_ROWS config)) em).
Proof.
  intros Hs Hrows Habs.
  unfold BasePage.get_value, try_except, bind.
  unfold Utils.get_value_from_field, bind.
  rewrite (position_absent config em field offset Hs Habs).
  unfold ret at 1. cbv iota beta.
  unfold BasePage.raise_new, Errors.new_FieldNotFoundError, bind.
  unfold Errors.capture, bind.
  rewrite (get_screen_shows config _ (shows_logged config _ em Hs)).
  cbn [screen logged]. unfold ret at 1. cbv iota beta.
  rewrite TerminalError_init_fails.
  - cbn [is_Exception]. now rewrite logged_logged.
  - destruct Hs as (_ & Hlen & _).
    destruct (screen em) as [|a [|b rest]]; simpl in Hlen; try lia.
    apply join_not_empty. discriminate.
Qed.

(** [get_value("Username:")] on a blank 24 x 80 screen. *)
Lemma get_value_label_absent_witness :
  shows default_config (session (screen_with 24 80 0 EmptyString)) /\
  absent_everywhere (session (screen_with 24 80 0 EmptyString)) "Username:" /\
  fst (BasePage.get_value default_config "Username:" 0 20
         (session (screen_with 24 80 0 EmptyString)))
  = Raise (Failed (with_screen
                     ("Campo " ++ PyStr.dquote ++ "Username:" ++ PyStr.dquote
                        ++ " não encontrado na tela")
                     (PyStr.join PyStr.newline (screen_with 24 80 0 EmptyString)))).
Proof.
  assert (Hs : shows default_config (session (screen_with 24 80 0 EmptyString)))
    by (repeat split; vm_compute; reflexivity).
  assert (Ha : absent_everywhere (session (screen_with 24 80 0 EmptyString)) "Username:")
    by (apply absent_everywhere_by_find; vm_compute; reflexivity).
  split; [exact Hs|]. split; [exact Ha|].
  rewrite (get_value_label_absent default_config _ "Username:" 0 20 Hs
             ltac:(vm_compute; discriminate) Ha).
  reflexivity.
Defined.

(** ** Key dispatch, key by key *)



(** X8.  A key that is no member of [Key] and has no [name] makes
    [input_key] raise [AttributeError] at once: nothing is sent to the
    emulator and the session is as before. *)
Theorem input_key_foreign_key (config : TerminalConfig) (text : string)
    (wait : bool) (em : Emulator) :
  BasePage.input_key config (Foreign text) wait em
  = (Raise (PyExc AttributeError "object has no attribute 'name'"), em).
Proof. reflexivity. Qed.

(** X9.  [input_key] adds nothing to a [send_key] that returns.  When
    [send_key] raises an exception that is no [TerminalError], on a
    screen as configured of two rows or more, [input_key] reads the
    screen and leaves through [pytest.fail] with the message of
    [KeyError]: the name of the key, the text of the exception, and the
    rows joined by line breaks. *)
Theorem input_key_wraps_send_key (config : TerminalConfig) (k : Key)
    (wait : bool) (em em1 : Emulator) :
  (Utils.send_key (Member k) wait em = (Return tt, em1) ->
   BasePage.input_key config (Member k) wait em = (Return tt, em1)) /\
  (forall cls msg,
     Utils.send_key (Member k) wait em = (Raise (PyExc cls msg), em1) ->
     shows config em1 -> 2 <= SCREEN_ROWS config ->
     BasePage.input_key config (Member k) wait em
     = (Raise (Failed (with_screen
                         ("Erro ao enviar tecla " ++ Key_name k ++ ": " ++ msg)
                         (PyStr.join PyStr.newline (screen em1)))),
        logged (row_reads config 1 (SCREEN_ROWS config)) em1)).
Proof.
  split.
  - intros E. unfold BasePage.input_key, Errors.name_of, bind, ret, try_except.
    now rewrite E.
  - intros cls msg E Hs Hrows.
    unfold BasePage.input_key, Errors.name_of, bind, try_except.
    unfold ret at 1. cbv iota beta. rewrite E.
    cbn [is_Exception is_TerminalError negb exn_str].
    unfold BasePage.raise_new, Errors.new_KeyError, bind.
    unfold Errors.capture, bind.
    rewrite (get_screen_shows config em1 Hs).
    unfold ret at 1. cbv iota beta.
    unfold Errors.name_of. unfold ret at 1. cbv iota beta.
    rewrite TerminalError_init_fails; [reflexivity|].
    destruct Hs as (_ & Hlen & _).
    destruct (screen em1) as [|a [|b rest]]; simpl in Hlen; try lia.
    apply join_not_empty. discriminate.
Qed.

(** [input_key(Key.TAB)] on a blank 24 x 80 screen. *)
Lemma input_key_wraps_send_key_witness :
  Utils.send_key (Member TAB) true (session (screen_with 24 80 0 EmptyString))
  = (Raise (PyExc TypeError "'Command' object is not callable"),
     logged dictionary_commands (session (screen_with 24 80 0 EmptyString))) /\
  shows default_config
    (logged dictionary_commands (session (screen_with 24 80 0 EmptyString))) /\
  BasePage.input_key default_config (Member TAB) true
    (session (screen_with 24 80 0 EmptyString))
  = (Raise (Failed (with_screen
                      "Erro ao enviar tecla TAB: 'Command' object is not callable"
                      (PyStr.join PyStr.newline (screen_with 24 80 0 EmptyString)))),
     logged (dictionary_commands ++ row_reads default_config 1 24)
       (session (screen_with 24 80 0 EmptyString))).
Proof.
  assert (E : Utils.send_key (Member TAB) true
                (session (screen_with 24 80 0 EmptyString))
              = (Raise (PyExc TypeError "'Command' object is not callable"),
                 logged dictionary_commands
                   (session (screen_with 24 80 0 EmptyString))))
    by reflexivity.
  assert (Hs : shows default_config
                 (logged dictionary_commands
                    (session (screen_with 24 80 0 EmptyString))))
    by (repeat split; vm_compute; reflexivity).
  split; [exact E|]. split; [exact Hs|].
  rewrite (proj2 (input_key_wraps_send_key default_config TAB true _ _) _ _ E Hs
             ltac:(vm_compute; discriminate)).
  reflexivity.
Defined.

(** ** The whole screen: [get_screen] *)

(** X10.  On a screen as configured, of one row or more,
    [BasePage.get_screen] reads each row once, top to bottom, and returns
    the rows in that order. *)
Theorem get_screen_returns_rows (config : TerminalConfig) (em : Emulator) :
  shows config em -> 1 <= SCREEN_ROWS config ->
  BasePage.get_screen config em
  = (Return (Some (screen em)),
     logged (row_reads config 1 (SCREEN_ROWS config)) em).
Proof.
  intros Hs Hrows. unfold BasePage.get_screen, try_except, bind.
  rewrite (get_screen_shows config em Hs).
  destruct Hs as (_ & Hlen & _).
  destruct (screen em) as [|l rest] eqn:E; [simpl in Hlen; lia|].
  reflexivity.
Qed.

(** The screen of scenario B, read whole. *)
Lemma get_screen_returns_rows_witness :
  shows default_config (session (screen_with 24 80 5 "Password  ===>")) /\
  BasePage.get_screen default_config (session (screen_with 24 80 5 "Password  ===>"))
  = (Return (Some (screen_with 24 80 5 "Password  ===>")),
     logged (row_reads default_config 1 24)
       (session (screen_with 24 80 5 "Password  ===>"))).
Proof.
  assert (Hs : shows default_config (session (screen_with 24 80 5 "Password  ===>")))
    by (repeat split; vm_compute; reflexivity).
  split; [exact Hs|].
  exact (get_screen_returns_rows default_config _ Hs ltac:(vm_compute; discriminate)).
Defined.

Lemma range_none (rows : Z) : rows <= 0 -> PyStr.range 1 (rows + 1) = [].
Proof.
  intros H. unfold PyStr.range.
  replace (Z.to_nat (rows + 1 - 1)) with 0%nat by lia. reflexivity.
Qed.

Lemma range_some (rows : Z) :
  1 <= rows -> PyStr.range 1 (rows + 1) = 1 :: PyStr.range 2 (rows + 1).
Proof.
  intros H. unfold PyStr.range.
  replace (Z.to_nat (rows + 1 - 1)) with (S (Z.to_nat (rows + 1 - 2))) by lia.
  reflexivity.
Qed.

(** X11.  With a configuration of no rows ([SCREEN_ROWS <= 0]) nothing
    is asked of the emulator: [get_screen], [input_text] and [get_value]
    leave through [pytest.fail] at once, the session is as before, and
    the message carries no screen. *)
Theorem no_rows_no_reads (config : TerminalConfig) (em : Emulator)
    (field value : string) (offset length : Z) :
  SCREEN_ROWS config <= 0 ->
  BasePage.get_screen config em
  = (Raise (Failed "Erro ao capturar tela: Tela vazia ou inválida"), em) /\
  BasePage.input_text config field value offset em
  = (Raise (Failed ("Campo " ++ PyStr.dquote ++ field ++ PyStr.dquote
                      ++ " não encontrado na tela")), em) /\
  BasePage.get_value config field offset length em
  = (Raise (Failed ("Campo " ++ PyStr.dquote ++ field ++ PyStr.dquote
                      ++ " não encontrado na tela")), em).
Proof.
  intros H.
  unfold BasePage.get_screen, BasePage.input_text, BasePage.get_value,
    BasePage.raise_new, Errors.new_ScreenError, Errors.new_FieldNotFoundError,
    Errors.capture, Utils.get_value_from_field, Utils.get_screen,
    Utils.find_and_send_text, Utils.find_text_position.
  rewrite (range_none _ H). repeat split; reflexivity.
Qed.

(** A configuration of zero rows on a blank screen. *)
Lemma no_rows_no_reads_witness :
  SCREEN_ROWS (mkTerminalConfig 80 0 30 0.05%Q false) <= 0 /\
  BasePage.get_screen (mkTerminalConfig 80 0 30 0.05%Q false)
    (session (screen_with 24 80 0 EmptyString))
  = (Raise (Failed "Erro ao capturar tela: Tela vazia ou inválida"),
     session (screen_with 24 80 0 EmptyString)).
Proof.
  split; [simpl; lia|].
  exact (proj1 (no_rows_no_reads (mkTerminalConfig 80 0 30 0.05%Q false)
                  (session (screen_with 24 80 0 EmptyString))
                  EmptyString EmptyString 0 0 ltac:(simpl; lia))).
Defined.

(** ** A session that no longer answers *)

(** X12.  On a session that no longer answers, with a configuration of
    one row or more, [input_text], [get_value], [input_string] and
    [input_key] end with the exception of the emulator itself: the
    capture inside the error they build raises again.  [get_screen]
    alone leaves through [pytest.fail], with the note in place of the
    screen. *)
Theorem dead_session_outcomes (config : TerminalConfig) (em : Emulator)
    (field value : string) (offset length : Z) (k : Key) (wait : bool) :
  budget em = Some 0%nat -> 1 <= SCREEN_ROWS config ->
  fst (BasePage.input_text config field value offset em)
  = Raise (PyExc CommandError "emulator is not answering") /\
  fst (BasePage.get_value config field offset length em)
  = Raise (PyExc CommandError "emulator is not answering") /\
  fst (BasePage.input_string config value em)
  = Raise (PyExc CommandError "emulator is not answering") /\
  fst (BasePage.input_key config (Member k) wait em)
  = Raise (PyExc CommandError "emulator is not answering") /\
  fst (BasePage.get_screen config em)
  = Raise (Failed (with_screen
                     "Erro ao capturar tela: emulator is not answering"
                     "Não foi possível capturar o conteúdo da tela: emulator is not answering")).
Proof.
  intros Hb Hrows. destruct em as [scr cur jrn bud]. simpl in Hb. subst bud.
  unfold BasePage.get_screen, BasePage.input_text, BasePage.input_text_except,
    BasePage.get_value, BasePage.input_string, BasePage.input_key,
    BasePage.raise_new, Errors.new_ScreenError, Errors.new_FieldNotFoundError,
    Errors.new_InputError, Errors.new_KeyError,
    Errors.capture, Utils.get_value_from_field, Utils.get_screen,
    Utils.find_and_send_text, Utils.find_text_position, Utils.send_text.
  rewrite (range_some _ Hrows).
  split; [reflexivity|]. split; [reflexivity|].
  split; [destruct value; reflexivity|].
  split; [reflexivity | reflexivity].
Qed.

(** The five calls on a dead session showing a blank screen. *)
Lemma dead_session_outcomes_witness :
  budget (dead_session (screen_with 24 80 0 EmptyString)) = Some 0%nat /\
  fst (BasePage.input_string default_config "abc"
         (dead_session (screen_with 24 80 0 EmptyString)))
  = Raise (PyExc CommandError "emulator is not answering").
Proof.
  split; [reflexivity|].
  exact (proj1 (proj2 (proj2
    (dead_session_outcomes default_config
       (dead_session (screen_with 24 80 0 EmptyString))
       EmptyString "abc" 0 0 ENTER true eq_refl ltac:(vm_compute; discriminate))))).
Defined.

(** ** A cursor column off the row *)




(** ** Printing the screen: [print_screen] *)






(** ** The factory: [EmulatorFactory] *)

Lemma put_last (em em' : Emulator) (objs : list Emulator) :
  Factory.put (List.length objs) em' (objs ++ [em]) = (objs ++ [em'])%list.
Proof. induction objs as [|o objs IH]; simpl; [reflexivity | now rewrite IH]. Qed.

Lemma nth_error_last (em : Emulator) (objs : list Emulator) :
  nth_error (objs ++ [em]) (List.length objs) = Some em.
Proof. induction objs as [|o objs IH]; simpl; [reflexivity | exact IH]. Qed.

(** X15.  On a factory as [EmulatorFactory()] leaves it, [is_connected],
    [get_emulator] and [terminate_emulator] all leave through
    [pytest.fail]: [__init__] binds the attribute [emulator], the
    methods read [emulador], and the [AttributeError] is wrapped in an
    [EmulatorError].  In particular [is_connected] does not return
    [False], and nothing in the process changes. *)
Theorem fresh_factory_fails (p : Factory.Process) :
  Factory.is_connected (Factory.init p)
  = (Raise (Failed ("Falha ao verificar status de conexão: "
                      ++ "'EmulatorFactory' object has no attribute 'emulador'")),
     Factory.init p) /\
  Factory.get_emulator (Factory.init p)
  = (Raise (Failed ("Falha ao obter emulador: "
                      ++ "'EmulatorFactory' object has no attribute 'emulador'")),
     Factory.init p) /\
  Factory.terminate_emulator (Factory.init p)
  = (Raise (Failed ("Falha ao terminar emulador: "
                      ++ "'EmulatorFactory' object has no attribute 'emulador'")),
     Factory.init p).
Proof. repeat split; reflexivity. Qed.

(** The process after a [create_emulator] that went through: the new
    emulator, connected and waited for, is the last object, and both
    [emulador] and the class attribute point to it. *)
Lemma create_emulator_runs (p : Factory.Process) (host : string) (em : Emulator) :
  budget em = None ->
  Factory.create_emulator host (Return em) p
  = (Return tt,
     {| Factory.objects :=
          Factory.objects p
            ++ [logged [Exec ("Connect(" ++ host ++ ")"); WaitForField] em];
        Factory.instance := Some (List.length (Factory.objects p));
        Factory.emulator := Factory.emulator p;
        Factory.emulador := Factory.Bound (Some (List.length (Factory.objects p))) |}).
Proof.
  intros Hb.
  unfold Factory.create_emulator, Factory.f_try_except, Factory.f_bind,
    Factory.construct, Factory.set_emulador, Factory.get_emulador,
    Factory.on_emulator, Factory.set_instance.
  cbn [Factory.objects Factory.instance Factory.emulator Factory.emulador].
  rewrite nth_error_last.
  unfold Factory.connect, Device.exec_command. rewrite (call_alive _ _ Hb).
  cbn [Factory.objects Factory.instance Factory.emulator Factory.emulador].
  rewrite put_last, nth_error_last.
  unfold Device.wait_for_field. rewrite call_alive by exact Hb.
  cbn [Factory.objects Factory.instance Factory.emulator Factory.emulador].
  rewrite put_last.
  replace (Device.log WaitForField (Device.log (Exec ("Connect(" ++ host ++ ")")) em))
    with (logged [Exec ("Connect(" ++ host ++ ")"); WaitForField] em)
    by (unfold logged, Device.log; simpl; now rewrite <- app_assoc).
  reflexivity.
Qed.

(** X16.  When the constructor of py3270 gives an emulator that
    answers, [create_emulator] sends it the connect command and the
    wait, in this order, and returns; afterwards [is_connected] is
    [True], and [get_emulator] and [get_instance] both give the new
    emulator, whatever the factory and the class attribute held
    before. *)
Theorem create_emulator_then_queries (p : Factory.Process) (host : string)
    (em : Emulator) :
  budget em = None ->
  exists p',
    Factory.create_emulator host (Return em) p = (Return tt, p') /\
    nth_error (Factory.objects p') (List.length (Factory.objects p))
    = Some (logged [Exec ("Connect(" ++ host ++ ")"); WaitForField] em) /\
    Factory.is_connected p' = (Return true, p') /\
    Factory.get_emulator p' = (Return (List.length (Factory.objects p)), p') /\
    Factory.get_instance p' = (Return (Some (List.length (Factory.objects p))), p').
Proof.
  intros Hb. eexists. split; [apply (create_emulator_runs p host em Hb)|].
  split; [apply nth_error_last|]. repeat split; reflexivity.
Qed.

(** A first emulator on a fresh factory. *)
Lemma create_emulator_then_queries_witness :
  budget (session (screen_with 24 80 0 EmptyString)) = None /\
  exists p',
    Factory.create_emulator "localhost:23"
      (Return (session (screen_with 24 80 0 EmptyString)))
      (Factory.init (Factory.mkProcess [] None Factory.Missing Factory.Missing))
    = (Return tt, p') /\
    Factory.is_connected p' = (Return true, p') /\
    Factory.get_instance p' = (Return (Some 0%nat), p').
Proof.
  split; [reflexivity|].
  destruct (create_emulator_then_queries
              (Factory.init (Factory.mkProcess [] None Factory.Missing Factory.Missing))
              "localhost:23" (session (screen_with 24 80 0 EmptyString)) eq_refl)
    as (p' & E & _ & Hc & _ & Hi).
  exists p'. split; [exact E|]. split; [exact Hc | exact Hi].
Defined.

(** X17.  When the constructor of py3270 raises, or gives an emulator
    that does not answer the connect command, [create_emulator] leaves
    through [pytest.fail] with the text of the exception, [emulador] is
    [None] afterwards, so that [is_connected] returns [False], and the
    class attribute [_instance] keeps the value it had: an emulator set
    by an earlier call stays the global instance. *)
Theorem create_emulator_failure (p : Factory.Process) (host : string)
    (boot : outcome Emulator) (msg : string) :
  (exists cls, boot = Raise (PyExc cls msg)) \/
  (exists em, boot = Return em /\ budget em = Some 0%nat /\
              msg = "emulator is not answering") ->
  exists p',
    Factory.create_emulator host boot p
    = (Raise (Failed ("Falha ao criar emulador: " ++ msg)), p') /\
    Factory.emulador p' = Factory.Bound None /\
    Factory.instance p' = Factory.instance p /\
    Factory.is_connected p' = (Return false, p') /\
    Factory.get_instance p' = (Return (Factory.instance p), p').
Proof.
  intros [(cls & ->) | (em & -> & Hb & ->)].
  - eexists. split; [reflexivity|]. repeat split; reflexivity.
  - unfold Factory.create_emulator, Factory.f_try_except, Factory.f_bind,
      Factory.construct, Factory.set_emulador, Factory.get_emulador,
      Factory.on_emulator, Factory.set_instance.
    cbn [Factory.objects Factory.instance Factory.emulator Factory.emulador].
    rewrite nth_error_last.
    unfold Factory.connect, Device.exec_command, Device.call. rewrite Hb.
    cbn [is_Exception exn_str].
    eexists. split; [reflexivity|]. repeat split; reflexivity.
Qed.

(** A second [create_emulator] whose constructor raises, after a first
    one that went through: not connected, the first emulator still the
    global instance. *)
Lemma create_emulator_failure_witness :
  exists p',
    Factory.create_emulator "localhost:23"
      (Raise (PyExc CommandError "s3270 not found"))
      (Factory.mkProcess [session (screen_with 24 80 0 EmptyString)] (Some 0%nat)
         (Factory.Bound None) (Factory.Bound (Some 0%nat)))
    = (Raise (Failed "Falha ao criar emulador: s3270 not found"), p') /\
    Factory.is_connected p' = (Return false, p') /\
    Factory.get_instance p' = (Return (Some 0%nat), p').
Proof.
  destruct (create_emulator_failure
              (Factory.mkProcess [session (screen_with 24 80 0 EmptyString)]
                 (Some 0%nat) (Factory.Bound None) (Factory.Bound (Some 0%nat)))
              "localhost:23" (Raise (PyExc CommandError "s3270 not found"))
              "s3270 not found")
    as (p' & E & _ & _ & Hc & Hi).
  - left. exists CommandError. reflexivity.
  - exists p'. split; [exact E|]. split; [exact Hc | exact Hi].
Defined.

(** X18.  On a factory whose [emulador] is an emulator that answers,
    [terminate_emulator] sends it the quit command, sets [emulador] to
    [None] and clears the class attribute [_instance], whatever emulator
    that pointed to; a second [terminate_emulator] then returns without
    a call on any emulator and changes nothing, and [is_connected] is
    [False]. *)
Theorem terminate_emulator_then_again (p : Factory.Process) (h : nat)
    (em : Emulator) :
  Factory.emulador p = Factory.Bound (Some h) ->
  nth_error (Factory.objects p) h = Some em ->
  budget em = None ->
  exists p',
    Factory.terminate_emulator p = (Return tt, p') /\
    Factory.objects p' = Factory.put h (logged [Exec "Quit"] em) (Factory.objects p) /\
    Factory.emulador p' = Factory.Bound None /\
    Factory.instance p' = None /\
    Factory.terminate_emulator p' = (Return tt, p') /\
    Factory.is_connected p' = (Return false, p').
Proof.
  intros He Hn Hb.
  unfold Factory.terminate_emulator at 1.
  unfold Factory.f_try_except, Factory.f_bind, Factory.get_emulador.
  rewrite He. unfold Factory.on_emulator. rewrite Hn.
  unfold Factory.terminate, Device.exec_command. rewrite (call_alive _ _ Hb).
  unfold Factory.set_emulador, Factory.set_instance.
  cbn [Factory.objects Factory.instance Factory.emulator Factory.emulador].
  eexists. split; [reflexivity|].
  cbn [Factory.objects Factory.instance Factory.emulator Factory.emulador].
  repeat split; reflexivity.
Qed.

(** Create, then terminate twice. *)
Lemma terminate_emulator_then_again_witness :
  exists p',
    Factory.terminate_emulator
      (Factory.mkProcess [session (screen_with 24 80 0 EmptyString)] (Some 0%nat)
         (Factory.Bound None) (Factory.Bound (Some 0%nat)))
    = (Return tt, p') /\
    Factory.instance p' = None /\
    Factory.terminate_emulator p' = (Return tt, p').
Proof.
  destruct (terminate_emulator_then_again
              (Factory.mkProcess [session (screen_with 24 80 0 EmptyString)]
                 (Some 0%nat) (Factory.Bound None) (Factory.Bound (Some 0%nat)))
              0%nat (session (screen_with 24 80 0 EmptyString))
              eq_refl eq_refl eq_refl)
    as (p' & E & _ & _ & Hi & E2 & _).
  exists p'. split; [exact E|]. split; [exact Hi | exact E2].
Defined.
